(** * PixelFit image resizer front end: a shallow embedding of the page scripts

    The repository is a static front end.  Every page loads one script:
    [app.js] (upload / process / download workflow and the profile badge),
    [profile.js] (profile page, user name update, sign-out), [editor.js]
    (bridge to the image editor widget) and the authentication script
    (login / signup forms).  The scripts are event handlers over the DOM, the
    page location and [fetch].

    Modelling choices, shared by all pages:
    - a JS string is a [string] whose characters are code units below 256;
    - DOM elements are the record fields the handlers read and write; an
      element a script guards with [if (el)] is an [option] (None: absent);
    - a handler is a computation in the monad [M]: it reads the environment
      (location, network replies, the answer to [confirm], the clock), threads
      the page state and may throw, as the JS code does with try / catch /
      finally;
    - [await] is sequential composition: one handler runs to completion.

    Modelled from the sources: the Environment Resolver of every script, the
    whole of app.js, the handlers of profile.js, and the export handler of
    editor.js with [dataUrlToBlob]. *)

From Stdlib Require Import String Ascii ZArith NArith List Lia Bool DecimalString.
From Stdlib Require Import ZifyNat.
From stdpp Require Import base list strings.
Import ListNotations.
Local Open Scope string_scope.
Set Warnings "-register-all".

(** ** Strings *)

Definition is_empty (s : string) : bool :=
  match s with EmptyString => true | String _ _ => false end.

(** The double quote character, used inside HTML templates and JSON text. *)
Definition dquote : ascii := ascii_of_nat 34.
Definition newline : ascii := ascii_of_nat 10.
Definition backslash : ascii := ascii_of_nat 92.

Definition str1 (c : ascii) : string := String c EmptyString.

Fixpoint all_chars (p : ascii -> bool) (s : string) : bool :=
  match s with
  | EmptyString => true
  | String c rest => p c && all_chars p rest
  end.

Fixpoint rev_string (acc s : string) : string :=
  match s with
  | EmptyString => acc
  | String c rest => rev_string (String c acc) rest
  end.

(** White space and line terminators of [String.prototype.trim] that fit in
    one code unit below 256: TAB, LF, VT, FF, CR, SP and NBSP. *)
Definition is_js_space (c : ascii) : bool :=
  let n := nat_of_ascii c in
  (Nat.leb 9 n && Nat.leb n 13) || Nat.eqb n 32 || Nat.eqb n 160.

Fixpoint trimStart (s : string) : string :=
  match s with
  | EmptyString => EmptyString
  | String c rest => if is_js_space c then trimStart rest else s
  end.

Definition trimEnd (s : string) : string :=
  rev_string EmptyString (trimStart (rev_string EmptyString s)).

(** [s.trim()] *)
Definition trim (s : string) : string := trimEnd (trimStart s).

(** Decimal rendering of an integer, as [String(n)] does for integers. *)
Definition decimal (z : Z) : string := NilZero.string_of_int (Z.to_int z).

(** [s.startsWith(p)] and [s.endsWith(p)] *)
Fixpoint startsWith (s p : string) : bool :=
  match p, s with
  | EmptyString, _ => true
  | String a p', String b s' => Ascii.eqb a b && startsWith s' p'
  | String _ _, EmptyString => false
  end.

Definition endsWith (s p : string) : bool :=
  startsWith (rev_string EmptyString s) (rev_string EmptyString p).

(** ** JSON values and the JS operations the scripts apply to them *)

(** The value [JSON.parse] yields.  Numbers are restricted to integers; the
    members of an object are listed once per key. *)
Inductive JSON : Type :=
| JNull
| JBool (b : bool)
| JNum (z : Z)
| JStr (s : string)
| JArr (items : list JSON)
| JObj (members : list (string * JSON)).

(** What a property read can give: [undefined] or a parsed value. *)
Inductive Val : Type :=
| Undefined
| Value (j : JSON).

(** ToBoolean *)
Definition truthy (v : Val) : bool :=
  match v with
  | Undefined => false
  | Value JNull => false
  | Value (JBool b) => b
  | Value (JNum z) => negb (Z.eqb z 0)
  | Value (JStr s) => negb (is_empty s)
  | Value (JArr _) => true
  | Value (JObj _) => true
  end.

(** ToString on parsed values: an array joins its items with commas (null
    items print as nothing), an object prints as [[object Object]]. *)
Fixpoint JSON_toString (j : JSON) : string :=
  match j with
  | JNull => "null"
  | JBool true => "true"
  | JBool false => "false"
  | JNum z => decimal z
  | JStr s => s
  | JArr items =>
      (fix join (l : list JSON) : string :=
         match l with
         | [] => EmptyString
         | [x] => match x with JNull => EmptyString | _ => JSON_toString x end
         | x :: rest =>
             (match x with JNull => EmptyString | _ => JSON_toString x end)
               +:+ "," +:+ join rest
         end) items
  | JObj _ => "[object Object]"
  end.

Definition ToString (v : Val) : string :=
  match v with
  | Undefined => "undefined"
  | Value j => JSON_toString j
  end.

Fixpoint lookup_member (k : string) (members : list (string * JSON)) : Val :=
  match members with
  | [] => Undefined
  | (k', j) :: rest => if String.eqb k k' then Value j else lookup_member k rest
  end.

(** [a || b] *)
Definition js_or (a b : Val) : Val := if truthy a then a else b.

(** [dataset.key === "literal"] for an attribute that may be missing. *)
Definition dataset_is (attribute : option string) (s : string) : bool :=
  match attribute with
  | Some v => String.eqb v s
  | None => false
  end.

(** [a === "literal"] *)
Definition strict_eq_str (v : Val) (s : string) : bool :=
  match v with
  | Value (JStr t) => String.eqb t s
  | _ => false
  end.

(** ** Exceptions, requests and responses *)

(** A thrown error object: its [name] and its [message]. *)
Record exn : Type := Exn { exn_name : string; exn_message : string }.

Inductive outcome (A : Type) : Type :=
| Ok (a : A)
| Throw (e : exn).
Arguments Ok {A} a.
Arguments Throw {A} e.

(** Errors raised by the platform rather than by the scripts.  The texts of
    their messages differ between browsers and are part of the environment. *)
Inductive platform_error : Type :=
| BodyAlreadyRead      (* TypeError: reading a response body twice *)
| JsonSyntax           (* SyntaxError: the body is not JSON *)
| PropertyOfNullish    (* TypeError: property access on null / undefined *)
| NotAFunction         (* TypeError: calling a missing method *)
| InvalidCharacter.    (* DOMException of atob *)

Definition platform_error_name (p : platform_error) : string :=
  match p with
  | JsonSyntax => "SyntaxError"
  | InvalidCharacter => "InvalidCharacterError"
  | _ => "TypeError"
  end.

Record File : Type := { name : string; type : string; contents : string }.
Record Blob : Type := { blob_bytes : string; blob_type : string }.

Inductive FormValue : Type :=
| FormString (s : string)
| FormFile (f : File) (filename : string).

(** A [FormData]: the appended entries, in order. *)
Definition FormData : Type := list (string * FormValue).

Inductive RequestBody : Type :=
| NoBody
| Multipart (form : FormData)
| TextBody (s : string).

(** [fetch(url, init)]: the members of [init] the scripts set.  The method
    defaults to GET, [credentials] is absent unless given. *)
Record Request : Type := {
  url : string;
  method : string;
  req_headers : list (string * string);
  credentials : option string;
  req_body : RequestBody
}.

(** A response body: absent, or bytes together with what [JSON.parse] makes
    of them ([None]: the text is not JSON). *)
Inductive Body : Type :=
| NullBody
| Bytes (text : string) (parsed : option JSON).

Record Response : Type := {
  ok : bool;
  status : nat;
  content_type : string;
  body : Body
}.

(** The text of a response body; a missing body reads as the empty text. *)
Definition body_text (r : Response) : string :=
  match body r with
  | NullBody => EmptyString
  | Bytes text _ => text
  end.

Inductive FetchReply : Type :=
| Rejected (e : exn)
| Resolved (r : Response).

Record Location : Type := {
  hostname : string;
  origin : string;
  pathname : string
}.

(** What a handler reads from outside the page state. *)
Record Env : Type := {
  location : Location;
  authToggle : option string;        (* document.body.dataset.authToggle *)
  net : Request -> FetchReply;       (* how the network answers a request *)
  confirm_answer : string -> bool;   (* the user's answer to window.confirm *)
  now : Z;                           (* Date.now() *)
  toDataURL : outcome string;        (* what the editor widget exports *)
  platform_message : platform_error -> string
}.

(** Window state shared by the page models. *)
Record Window : Type := {
  href : option string;        (* last assignment to window.location.href *)
  sent : list Request;         (* requests issued through fetch, in order *)
  prompts : list string;       (* messages shown through window.confirm *)
  bodyUsed : bool;             (* the received response's body was read *)
  objectURLs : list Blob;      (* blobs given a URL by URL.createObjectURL *)
  revokedURLs : list string
}.

Definition initial_window : Window :=
  {| href := None; sent := []; prompts := []; bodyUsed := false;
     objectURLs := []; revokedURLs := [] |}.

Record Page (D : Type) : Type := { dom : D; win : Window }.
Arguments dom {D} p.
Arguments win {D} p.
Arguments Build_Page {D} dom win.

(** ** The handler monad *)

Definition M (D A : Type) : Type := Env -> Page D -> outcome A * Page D.

Section Monad.
Context {D : Type}.

Definition ret {A} (a : A) : M D A := fun _ p => (Ok a, p).

Definition bind {A B} (c : M D A) (k : A -> M D B) : M D B :=
  fun env p =>
    match c env p with
    | (Ok a, p') => k a env p'
    | (Throw e, p') => (Throw e, p')
    end.

Definition throw {A} (e : exn) : M D A := fun _ p => (Throw e, p).

Definition throw_platform {A} (pe : platform_error) : M D A :=
  fun env p => (Throw (Exn (platform_error_name pe) (platform_message env pe)), p).

(** [try { c } catch (error) { h error }] *)
Definition try_catch {A} (c : M D A) (h : exn -> M D A) : M D A :=
  fun env p =>
    match c env p with
    | (Ok a, p') => (Ok a, p')
    | (Throw e, p') => h e env p'
    end.

(** [try { c } finally { f }] *)
Definition try_finally {A} (c : M D A) (f : M D unit) : M D A :=
  fun env p =>
    match c env p with
    | (r, p') =>
        match f env p' with
        | (Ok _, p'') => (r, p'')
        | (Throw e, p'') => (Throw e, p'')
        end
    end.

Definition ask : M D Env := fun env p => (Ok env, p).
Definition get_dom : M D D := fun _ p => (Ok (dom p), p).
Definition modify_dom (f : D -> D) : M D unit :=
  fun _ p => (Ok tt, Build_Page (f (dom p)) (win p)).
Definition get_win : M D Window := fun _ p => (Ok (win p), p).
Definition modify_win (f : Window -> Window) : M D unit :=
  fun _ p => (Ok tt, Build_Page (dom p) (f (win p))).
End Monad.

Declare Scope js_scope.
Delimit Scope js_scope with js.
Notation "x <- c ;; k" := (bind c (fun x => k))
  (at level 100, c at next level, right associativity) : js_scope.
Notation "c ;; k" := (bind c (fun _ => k))
  (at level 100, right associativity) : js_scope.
Local Open Scope js_scope.

Section Platform.
Context {D : Type}.

Definition set_href (w : Window) (v : option string) : Window :=
  {| href := v; sent := sent w; prompts := prompts w; bodyUsed := bodyUsed w;
     objectURLs := objectURLs w; revokedURLs := revokedURLs w |}.
Definition set_sent (w : Window) (v : list Request) : Window :=
  {| href := href w; sent := v; prompts := prompts w; bodyUsed := bodyUsed w;
     objectURLs := objectURLs w; revokedURLs := revokedURLs w |}.
Definition set_prompts (w : Window) (v : list string) : Window :=
  {| href := href w; sent := sent w; prompts := v; bodyUsed := bodyUsed w;
     objectURLs := objectURLs w; revokedURLs := revokedURLs w |}.
Definition set_bodyUsed (w : Window) (v : bool) : Window :=
  {| href := href w; sent := sent w; prompts := prompts w; bodyUsed := v;
     objectURLs := objectURLs w; revokedURLs := revokedURLs w |}.
Definition set_objectURLs (w : Window) (v : list Blob) : Window :=
  {| href := href w; sent := sent w; prompts := prompts w; bodyUsed := bodyUsed w;
     objectURLs := v; revokedURLs := revokedURLs w |}.
Definition set_revokedURLs (w : Window) (v : list string) : Window :=
  {| href := href w; sent := sent w; prompts := prompts w; bodyUsed := bodyUsed w;
     objectURLs := objectURLs w; revokedURLs := v |}.

(** [window.location.href = target] *)
Definition navigate (target : string) : M D unit :=
  modify_win (fun w => set_href w (Some target)).

(** [await fetch(...)]: the request goes out, the reply is the network's.
    A resolved reply is a fresh response whose body is unread. *)
Definition fetch (req : Request) : M D Response :=
  modify_win (fun w => set_bodyUsed (set_sent w (sent w ++ [req])) false) ;;
  env <- ask ;;
  match net env req with
  | Rejected e => throw e
  | Resolved r => ret r
  end.

(** [window.confirm(message)] *)
Definition confirm (message : string) : M D bool :=
  modify_win (fun w => set_prompts w (prompts w ++ [message])) ;;
  env <- ask ;;
  ret (confirm_answer env message).

(** Reading a body: a body that is present can be read once; a second read
    is rejected with a TypeError. *)
Definition consume_body (r : Response) : M D (string * option JSON) :=
  match body r with
  | NullBody => ret (EmptyString, None)
  | Bytes text parsed =>
      w <- get_win ;;
      if bodyUsed w then throw_platform BodyAlreadyRead
      else modify_win (fun w => set_bodyUsed w true) ;; ret (text, parsed)
  end.

(** [await response.json()] *)
Definition Response_json (r : Response) : M D JSON :=
  b <- consume_body r ;;
  match snd b with
  | Some j => ret j
  | None => throw_platform JsonSyntax
  end.

(** [await response.text()] *)
Definition Response_text (r : Response) : M D string :=
  b <- consume_body r ;;
  ret (fst b).

(** [await response.blob()] *)
Definition Response_blob (r : Response) : M D Blob :=
  b <- consume_body r ;;
  ret {| blob_bytes := fst b; blob_type := content_type r |}.

(** [URL.createObjectURL(blob)]: a URL no earlier call returned. *)
Definition createObjectURL (b : Blob) : M D string :=
  w <- get_win ;;
  modify_win (fun w => set_objectURLs w (objectURLs w ++ [b])) ;;
  ret ("blob:" +:+ decimal (Z.of_nat (length (objectURLs w)))).

Definition revokeObjectURL (u : string) : M D unit :=
  modify_win (fun w => set_revokedURLs w (revokedURLs w ++ [u])).

(** [v.prop] on a parsed value: null has no properties; only objects carry
    the members the scripts ask for. *)
Definition get_prop (v : Val) (k : string) : M D Val :=
  match v with
  | Undefined => throw_platform PropertyOfNullish
  | Value JNull => throw_platform PropertyOfNullish
  | Value (JObj members) => ret (lookup_member k members)
  | Value _ => ret Undefined
  end.
End Platform.

(** ** Environment Resolver

    Each script starts with the same test on the host name and picks its own
    base for the deployed case. *)

Definition loopback_base : string := "http://127.0.0.1:8000".

Definition IS_LOCAL (loc : Location) : bool :=
  String.eqb (hostname loc) "localhost" || String.eqb (hostname loc) "127.0.0.1".

(** ** app.js: profile badge and upload / process / download workflow *)

Module App.

(** [const API_BASE = IS_LOCAL ? "http://127.0.0.1:8000" : window.location.origin] *)
Definition API_BASE (loc : Location) : string :=
  if IS_LOCAL loc then loopback_base else origin loc.

(** [window.PIXELFIT_ASSETS], or the two URLs empty when it is missing. *)
Record Assets : Type := { femaleProfileUrl : string; maleProfileUrl : string }.

Record Img : Type := { src : string; img_display : string }.
Record Span : Type := { span_text : string; span_display : string }.

(** The profile badge elements; each may be missing from a page. *)
Record Badge : Type := {
  profile_hidden : option bool;
  authActions_hidden : option bool;
  profileUsername : option string;       (* textContent *)
  profileName : option string;           (* textContent *)
  profileAvatar : option Img;
  profileAvatarFallback : option Span
}.

(** Pending File Entry *)
Record Entry : Type := { file : File; mainFolder : string }.

(** Children of [fileList]: the empty-state notice or a file card, which
    holds the markup assigned to its title and to its input field. *)
Inductive FileListChild : Type :=
| EmptyState (className text : string)
| FileCard (title_innerHTML mainField_innerHTML : string).

Record DownloadCard : Type := {
  label_text : string;
  link_href : string;
  link_download : string;
  link_text : string
}.

Record State : Type := {
  badge : Badge;
  fileList : list FileListChild;
  processBtn_disabled : bool;
  progressFill_width : string;
  statusText : string;
  downloadArea : list DownloadCard;
  filesState : list Entry
}.

Definition set_badge (v : Badge) (st : State) : State :=
  {| badge := v; fileList := fileList st;
     processBtn_disabled := processBtn_disabled st;
     progressFill_width := progressFill_width st; statusText := statusText st;
     downloadArea := downloadArea st; filesState := filesState st |}.
Definition set_fileList (v : list FileListChild) (st : State) : State :=
  {| badge := badge st; fileList := v;
     processBtn_disabled := processBtn_disabled st;
     progressFill_width := progressFill_width st; statusText := statusText st;
     downloadArea := downloadArea st; filesState := filesState st |}.
Definition set_processBtn_disabled (v : bool) (st : State) : State :=
  {| badge := badge st; fileList := fileList st;
     processBtn_disabled := v;
     progressFill_width := progressFill_width st; statusText := statusText st;
     downloadArea := downloadArea st; filesState := filesState st |}.
Definition set_progressFill_width (v : string) (st : State) : State :=
  {| badge := badge st; fileList := fileList st;
     processBtn_disabled := processBtn_disabled st;
     progressFill_width := v; statusText := statusText st;
     downloadArea := downloadArea st; filesState := filesState st |}.
Definition set_statusText (v : string) (st : State) : State :=
  {| badge := badge st; fileList := fileList st;
     processBtn_disabled := processBtn_disabled st;
     progressFill_width := progressFill_width st; statusText := v;
     downloadArea := downloadArea st; filesState := filesState st |}.
Definition set_downloadArea (v : list DownloadCard) (st : State) : State :=
  {| badge := badge st; fileList := fileList st;
     processBtn_disabled := processBtn_disabled st;
     progressFill_width := progressFill_width st; statusText := statusText st;
     downloadArea := v; filesState := filesState st |}.
Definition set_filesState (v : list Entry) (st : State) : State :=
  {| badge := badge st; fileList := fileList st;
     processBtn_disabled := processBtn_disabled st;
     progressFill_width := progressFill_width st; statusText := statusText st;
     downloadArea := downloadArea st; filesState := v |}.

(** Writes to the badge elements, each guarded by [if (element)]. *)
Definition set_profile_hidden (v : bool) (b : Badge) : Badge :=
  {| profile_hidden := option_map (fun _ => v) (profile_hidden b);
     authActions_hidden := authActions_hidden b;
     profileUsername := profileUsername b; profileName := profileName b;
     profileAvatar := profileAvatar b;
     profileAvatarFallback := profileAvatarFallback b |}.
Definition set_authActions_hidden (v : bool) (b : Badge) : Badge :=
  {| profile_hidden := profile_hidden b;
     authActions_hidden := option_map (fun _ => v) (authActions_hidden b);
     profileUsername := profileUsername b; profileName := profileName b;
     profileAvatar := profileAvatar b;
     profileAvatarFallback := profileAvatarFallback b |}.
Definition set_profileUsername (v : string) (b : Badge) : Badge :=
  {| profile_hidden := profile_hidden b;
     authActions_hidden := authActions_hidden b;
     profileUsername := option_map (fun _ => v) (profileUsername b);
     profileName := profileName b;
     profileAvatar := profileAvatar b;
     profileAvatarFallback := profileAvatarFallback b |}.
Definition set_profileName (v : string) (b : Badge) : Badge :=
  {| profile_hidden := profile_hidden b;
     authActions_hidden := authActions_hidden b;
     profileUsername := profileUsername b;
     profileName := option_map (fun _ => v) (profileName b);
     profileAvatar := profileAvatar b;
     profileAvatarFallback := profileAvatarFallback b |}.
Definition set_avatar (img : Img) (fallback : Span) (b : Badge) : Badge :=
  {| profile_hidden := profile_hidden b;
     authActions_hidden := authActions_hidden b;
     profileUsername := profileUsername b; profileName := profileName b;
     profileAvatar := Some img;
     profileAvatarFallback := Some fallback |}.

Definition on_badge (f : Badge -> Badge) : M State unit :=
  modify_dom (fun st => set_badge (f (badge st)) st).

(** [email.split("@")[0]] *)
Fixpoint before_at (s : string) : string :=
  match s with
  | EmptyString => EmptyString
  | String c rest =>
      if Ascii.eqb c "@" then EmptyString else String c (before_at rest)
  end.

Definition baseUsernameFromEmail (email : Val) : M State string :=
  if negb (truthy email) then ret "user"
  else
    match email with
    | Value (JStr s) =>
        let head := before_at s in
        ret (if is_empty head then "user" else head)
    | _ => throw_platform NotAFunction
    end.

Definition is_protected_path (path : string) : bool :=
  endsWith path "/app.html" || endsWith path "/Landing.html".

Section WithAssets.
Variable ASSETS : Assets.

(** The part of [loadCurrentUser] after a 2xx reply. *)
Definition show_user (response : Response) : M State unit :=
  data <- Response_json response ;;
  u <- get_prop (Value data) "user" ;;
  let user := js_or u (Value (JObj [])) in
  on_badge (set_profile_hidden false) ;;
  on_badge (set_authActions_hidden true) ;;
  st <- get_dom ;;
  match profileUsername (badge st) with
  | Some _ =>
      username <- get_prop user "username" ;;
      text <- (if truthy username then ret (ToString username)
               else
                 email <- get_prop user "email" ;;
                 baseUsernameFromEmail (js_or email (Value (JStr EmptyString)))) ;;
      on_badge (set_profileUsername text)
  | None => ret tt
  end ;;
  match profileName (badge st) with
  | Some _ =>
      nm <- get_prop user "name" ;;
      email <- get_prop user "email" ;;
      on_badge (set_profileName
                  (ToString (js_or (js_or nm email) (Value (JStr EmptyString)))))
  | None => ret tt
  end ;;
  match profileAvatar (badge st), profileAvatarFallback (badge st) with
  | Some img, Some fallback =>
      let hide_fallback :=
        {| span_text := span_text fallback; span_display := "none" |} in
      avatar_url <- get_prop user "avatar_url" ;;
      if truthy avatar_url then
        on_badge (set_avatar
                    {| src := ToString avatar_url; img_display := "block" |}
                    hide_fallback)
      else
        gender <- get_prop user "gender" ;;
        if strict_eq_str gender "female" then
          on_badge (set_avatar
                      {| src := femaleProfileUrl ASSETS; img_display := "block" |}
                      hide_fallback)
        else if strict_eq_str gender "male" then
          on_badge (set_avatar
                      {| src := maleProfileUrl ASSETS; img_display := "block" |}
                      hide_fallback)
        else
          on_badge (set_avatar
                      {| src := EmptyString; img_display := "none" |}
                      {| span_text := "👤"; span_display := "block" |})
  | _, _ => ret tt
  end.

Definition me_request (loc : Location) : Request :=
  {| url := API_BASE loc +:+ "/api/me"; method := "GET"; req_headers := [];
     credentials := Some "include"; req_body := NoBody |}.

Definition loadCurrentUser : M State unit :=
  env <- ask ;;
  if dataset_is (authToggle env) "off" then ret tt
  else
    try_catch
      (response <- fetch (me_request (location env)) ;;
       if negb (ok response) then
         if is_protected_path (pathname (location env)) then
           navigate "login.html"
         else
           on_badge (set_profile_hidden true) ;;
           on_badge (set_authActions_hidden false)
       else show_user response)
      (fun _ =>
         on_badge (set_profile_hidden true) ;;
         on_badge (set_authActions_hidden false)).
End WithAssets.

(** [updateStatus] and [setProgress]; the script passes 0 and 1 only, so the
    progress value is an integer here. *)
Definition updateStatus (message : string) (st : State) : State :=
  set_statusText message st.

Definition setProgress (value : Z) (st : State) : State :=
  let clamped := Z.max 0 (Z.min 1 value) in
  set_progressFill_width (decimal (clamped * 100) +:+ "%") st.

(** The character class of the regular expression in [formatFileName]:
    anything but a slash or a dot. *)
Definition is_ext_char (c : ascii) : bool :=
  negb (Ascii.eqb c "/") && negb (Ascii.eqb c ".").

(** The regular expression tried at the start of [s]: a dot, then one or more
    characters of the class, up to the end of the name. *)
Definition ext_match_here (s : string) : bool :=
  match s with
  | EmptyString => false
  | String c rest =>
      Ascii.eqb c "." && negb (is_empty rest) && all_chars is_ext_char rest
  end.

(** [name.replace(re, empty)]: the leftmost match is removed. *)
Fixpoint replace_ext (s : string) : string :=
  if ext_match_here s then EmptyString
  else
    match s with
    | EmptyString => EmptyString
    | String c rest => String c (replace_ext rest)
    end.

Definition formatFileName (name : string) : string :=
  let base := replace_ext name in
  if is_empty base then "image" else base.

Definition every_mainFolder (entries : list Entry) : bool :=
  forallb (fun entry => negb (is_empty (mainFolder entry))) entries.

Definition file_card (index : nat) (entry : Entry) : FileListChild :=
  let q := str1 dquote in
  let nl := str1 newline in
  FileCard
    ("<span>" +:+ name (file entry) +:+ "</span><span class=" +:+ q +:+ "badge"
       +:+ q +:+ ">"
       +:+ (if is_empty (type (file entry)) then "image" else type (file entry))
       +:+ "</span>")
    (nl +:+ "      <label>Main output folder name</label>" +:+ nl
       +:+ "      <input type=" +:+ q +:+ "text" +:+ q
       +:+ " value=" +:+ q +:+ mainFolder entry +:+ q
       +:+ " data-index=" +:+ q +:+ decimal (Z.of_nat index) +:+ q
       +:+ " data-field=" +:+ q +:+ "mainFolder" +:+ q +:+ " />" +:+ nl
       +:+ "    ").

Definition renderFiles (st : State) : State :=
  let st := set_fileList [] st in
  if Nat.eqb (length (filesState st)) 0 then
    let st :=
      set_fileList
        (fileList st ++
           [EmptyState "empty-state"
              "No artwork yet. Drop files here or tap “Select artwork.”"])
        st in
    set_processBtn_disabled true st
  else
    let st := set_fileList (fileList st ++ imap file_card (filesState st)) st in
    set_processBtn_disabled (negb (every_mainFolder (filesState st))) st.

(** [Number(target.dataset.index)]: not a number, an array index, or some
    other number (negative, fractional, infinite). *)
Inductive JsNumber : Type :=
| NaN
| Index (n : nat)
| NotAnIndex.

(** The target of an input event, as [updateStateFromInputs] reads it. *)
Record InputTarget : Type := {
  tagName : string;
  index_number : JsNumber;            (* Number(target.dataset.index) *)
  dataset_field : option string;      (* target.dataset.field *)
  value : string
}.

(** [entry[field] = v].  The inputs [renderFiles] creates carry
    [data-field="mainFolder"]; a write under another property name does not
    reach [mainFolder]. *)
Definition set_property (entry : Entry) (field v : string) : Entry :=
  if String.eqb field "mainFolder" then {| file := file entry; mainFolder := v |}
  else entry.

Definition updateStateFromInputs (target : InputTarget) : M State unit :=
  if negb (String.eqb (tagName target) "INPUT") then ret tt
  else
    match index_number target, dataset_field target with
    | NaN, _ => ret tt
    | _, None => ret tt
    | index, Some field =>
        if is_empty field then ret tt
        else
          st <- get_dom ;;
          match index with
          | Index n =>
              match filesState st !! n with
              | Some entry =>
                  modify_dom (fun st =>
                    set_filesState
                      (<[n := set_property entry field (trim (value target))]>
                         (filesState st)) st) ;;
                  modify_dom (fun st =>
                    set_processBtn_disabled
                      (negb (every_mainFolder (filesState st))) st)
              | None => throw_platform PropertyOfNullish
              end
          | _ => throw_platform PropertyOfNullish
          end
    end.

(** The [change] handler of [fileInput]; [files] is
    [Array.from(event.target.files || [])]. *)
Definition on_change (files : list File) (st : State) : State :=
  let st :=
    set_filesState
      (map (fun file =>
              let base := formatFileName (name file) in
              {| file := file; mainFolder := base |}) files) st in
  let st := set_downloadArea [] st in
  let st := setProgress 0 st in
  let st := updateStatus "Files loaded. Add folder names and hit process." st in
  renderFiles st.

Definition createDownloadCard (name : string) (blob : Blob) : M State unit :=
  url <- createObjectURL blob ;;
  modify_dom (fun st =>
    set_downloadArea
      (downloadArea st ++
         [{| label_text := name; link_href := url; link_download := name;
             link_text := "Download zip" |}]) st).

(** [JSON.stringify] on an array of strings. *)
Definition hex_digit (n : nat) : ascii :=
  if Nat.ltb n 10 then ascii_of_nat (48 + n) else ascii_of_nat (87 + n).

Definition json_escape_char (c : ascii) : string :=
  let n := nat_of_ascii c in
  if Nat.eqb n 34 then String backslash (str1 dquote)
  else if Nat.eqb n 92 then String backslash (str1 backslash)
  else if Nat.eqb n 8 then String backslash "b"
  else if Nat.eqb n 9 then String backslash "t"
  else if Nat.eqb n 10 then String backslash "n"
  else if Nat.eqb n 12 then String backslash "f"
  else if Nat.eqb n 13 then String backslash "r"
  else if Nat.ltb n 32 then
    String backslash "u00"
      +:+ str1 (hex_digit (n / 16)) +:+ str1 (hex_digit (n mod 16))
  else str1 c.

Fixpoint json_escape (s : string) : string :=
  match s with
  | EmptyString => EmptyString
  | String c rest => json_escape_char c +:+ json_escape rest
  end.

Definition json_quote (s : string) : string :=
  str1 dquote +:+ json_escape s +:+ str1 dquote.

Fixpoint join_comma (l : list string) : string :=
  match l with
  | [] => EmptyString
  | [x] => x
  | x :: rest => x +:+ "," +:+ join_comma rest
  end.

Definition JSON_stringify (l : list string) : string :=
  "[" +:+ join_comma (map json_quote l) +:+ "]".

Definition resize_request (loc : Location) (formData : FormData) : Request :=
  {| url := API_BASE loc +:+ "/resize"; method := "POST"; req_headers := [];
     credentials := None; req_body := Multipart formData |}.

(** The [forEach] of the click handler: one [files] entry appended to the
    form and one folder name pushed per entry. *)
Definition collect (entries : list Entry) : FormData * list string :=
  fold_left
    (fun (acc : FormData * list string) entry =>
       ((fst acc ++ [("files", FormFile (file entry) (name (file entry)))])%list,
        (snd acc ++ [mainFolder entry])%list))
    entries ([], []).

Definition build_form (entries : list Entry) : FormData :=
  let (formData, mainFolders) := collect entries in
  let formData :=
    (formData ++ [("base_names", FormString (JSON_stringify mainFolders))])%list in
  (formData ++ [("main_folder", FormString (JSON_stringify mainFolders))])%list.

(** The message of the error thrown on a non-2xx reply. *)
Definition error_detail (response : Response) : M State Val :=
  try_catch
    (errorData <- Response_json response ;;
     detail <- get_prop (Value errorData) "detail" ;;
     ret (js_or detail (Value (JStr "Server error."))))
    (fun _ =>
       text <- Response_text response ;;
       ret (Value (JStr text))).

(** The [click] handler of [processBtn]. *)
Definition on_process_click : M State unit :=
  st <- get_dom ;;
  if Nat.eqb (length (filesState st)) 0 then
    modify_dom (updateStatus "Add files first.")
  else
    modify_dom (set_processBtn_disabled true) ;;
    modify_dom (set_downloadArea []) ;;
    modify_dom (updateStatus "Processing images...") ;;
    modify_dom (setProgress 0) ;;
    try_finally
      (try_catch
         (st <- get_dom ;;
          let formData := build_form (filesState st) in
          modify_dom (updateStatus "Sending to server...") ;;
          env <- ask ;;
          response <- fetch (resize_request (location env) formData) ;;
          (if negb (ok response) then
             detail <- error_detail response ;;
             throw (Exn "Error" (ToString detail))
           else ret tt) ;;
          zipBlob <- Response_blob response ;;
          let zipName := "resized_images.zip" in
          createDownloadCard zipName zipBlob ;;
          modify_dom (setProgress 1) ;;
          modify_dom (updateStatus "All images processed and ready for download!"))
         (fun error =>
            modify_dom (updateStatus ("Error: " +:+ exn_message error))))
      (modify_dom (set_processBtn_disabled false)).
End App.

(** ** profile.js: profile page *)

Module Profile.

Definition production_base : string := "https://image-resizer-rxnr.onrender.com".

Definition API_BASE (loc : Location) : string :=
  if IS_LOCAL loc then loopback_base else production_base.

(** The elements of the profile page; the script uses them without a guard,
    so they are taken to be present. *)
Record State : Type := {
  userPanel_hidden : bool;
  userGreeting : string;              (* textContent *)
  usernameInput_value : string;
  usernameMessage : string;           (* textContent *)
  usernameMessage_tone : string       (* dataset.tone *)
}.

Definition setUsernameMessage (text tone : string) (st : State) : State :=
  {| userPanel_hidden := userPanel_hidden st; userGreeting := userGreeting st;
     usernameInput_value := usernameInput_value st;
     usernameMessage := text; usernameMessage_tone := tone |}.

Definition show_profile (greeting username : string) (st : State) : State :=
  {| userPanel_hidden := false; userGreeting := greeting;
     usernameInput_value := username;
     usernameMessage := usernameMessage st;
     usernameMessage_tone := usernameMessage_tone st |}.

Definition me_request (loc : Location) : Request :=
  {| url := API_BASE loc +:+ "/api/me"; method := "GET"; req_headers := [];
     credentials := Some "include"; req_body := NoBody |}.

Definition loadCurrentUser : M State unit :=
  try_catch
    (env <- ask ;;
     response <- fetch (me_request (location env)) ;;
     if negb (ok response) then navigate "login.html"
     else
       data <- Response_json response ;;
       u <- get_prop (Value data) "user" ;;
       let user := js_or u (Value (JObj [])) in
       nm <- get_prop user "name" ;;
       email <- get_prop user "email" ;;
       username <- get_prop user "username" ;;
       modify_dom
         (show_profile
            ("Signed in as " +:+ ToString (js_or nm email) +:+ ".")
            (ToString (js_or username (Value (JStr EmptyString))))))
    (fun _ => navigate "login.html").

(** [JSON.stringify({ username })] *)
Definition username_payload (username : string) : string :=
  "{" +:+ App.json_quote "username" +:+ ":" +:+ App.json_quote username +:+ "}".

Definition username_request (loc : Location) (username : string) : Request :=
  {| url := API_BASE loc +:+ "/api/username"; method := "POST";
     req_headers := [("Content-Type", "application/json")];
     credentials := Some "include";
     req_body := TextBody (username_payload username) |}.

(** The [submit] handler of [usernameForm]. *)
Definition on_username_submit : M State unit :=
  st <- get_dom ;;
  let username := trim (usernameInput_value st) in
  if is_empty username then
    modify_dom (setUsernameMessage "Username is required." "error")
  else
    modify_dom (setUsernameMessage "Updating..." "info") ;;
    try_catch
      (env <- ask ;;
       response <- fetch (username_request (location env) username) ;;
       data <- Response_json response ;;
       (if negb (ok response) then
          detail <- get_prop (Value data) "detail" ;;
          throw (Exn "Error"
                   (ToString (js_or detail (Value (JStr "Unable to update username.")))))
        else ret tt) ;;
       modify_dom (setUsernameMessage "Username updated." "success"))
      (fun error => modify_dom (setUsernameMessage (exn_message error) "error")).

Definition logout_request (loc : Location) : Request :=
  {| url := API_BASE loc +:+ "/api/logout"; method := "POST"; req_headers := [];
     credentials := Some "include"; req_body := NoBody |}.

Definition sign_out_prompt : string := "Are You Sure You Want To Sign Out".

(** The [click] handler of [signOutBtn].  The fetch is awaited outside any
    try block: a rejection ends the handler. *)
Definition on_signOut_click : M State unit :=
  confirmed <- confirm sign_out_prompt ;;
  if negb confirmed then ret tt
  else
    env <- ask ;;
    _ <- fetch (logout_request (location env)) ;;
    navigate "index.html".
End Profile.

(** ** The authentication script (login and signup forms) *)

Module Auth.

Definition production_base : string := "https://image-resizer-deao.onrender.com".

Definition API_BASE (loc : Location) : string :=
  if IS_LOCAL loc then loopback_base else production_base.

(** The message element, if the page has one: its [textContent] and its
    [dataset.tone]. *)
Record State : Type := { authMessage : option (string * string) }.

Definition setMessage (text tone : string) (st : State) : State :=
  {| authMessage := option_map (fun _ => (text, tone)) (authMessage st) |}.

(** [JSON.stringify] on an object whose members are strings, in the order
    they were written. *)
Definition stringify_object (members : list (string * string)) : string :=
  "{" +:+
  App.join_comma
    (map (fun member => App.json_quote (fst member) +:+ ":" +:+ App.json_quote (snd member))
       members)
  +:+ "}".

Definition auth_request (loc : Location) (endpoint : string)
  (payload : list (string * string)) : Request :=
  {| url := API_BASE loc +:+ endpoint; method := "POST";
     req_headers := [("Content-Type", "application/json")];
     credentials := Some "include";
     req_body := TextBody (stringify_object payload) |}.

(** [error.message || "Unable to sign in."] *)
Definition shown_message (error : exn) : string :=
  if is_empty (exn_message error) then "Unable to sign in." else exn_message error.

Definition handleAuth (endpoint : string) (payload : list (string * string))
  : M State unit :=
  modify_dom (setMessage "Working..." "info") ;;
  try_catch
    (env <- ask ;;
     response <- fetch (auth_request (location env) endpoint payload) ;;
     (if negb (ok response) then
        data <- try_catch
                  (j <- Response_json response ;; ret (Value j))
                  (fun _ => ret (Value (JObj []))) ;;
        detail <- get_prop data "detail" ;;
        throw (Exn "Error"
                 (ToString (js_or detail (Value (JStr "Something went wrong.")))))
      else ret tt) ;;
     modify_dom (setMessage "Success! Redirecting..." "success") ;;
     navigate "Landing.html")
    (fun error => modify_dom (setMessage (shown_message error) "error")).

(** The [submit] handlers of the login and signup forms; the arguments are
    the values of the form fields. *)
Definition on_login_submit (email password : string) : M State unit :=
  handleAuth "/api/login" [("email", email); ("password", password)].

Definition on_signup_submit (name username gender email password : string)
  : M State unit :=
  handleAuth "/api/signup"
    [("name", name); ("username", username); ("gender", gender);
     ("email", email); ("password", password)].

(** The [click] handler of a Google button. *)
Definition on_google_click : M State unit :=
  env <- ask ;;
  navigate (API_BASE (location env) +:+ "/api/auth/google/start").
End Auth.

(** ** assets.js: logos and the navigation links of the shared pages *)

Module Assets.

Definition logoUrl : string := "/Image/PixelFit Logo.png".

(** The [src] of every logo image, and the [href] of the two navigation
    buttons a page may have. *)
Record State : Type := {
  logos : list string;
  homeBtn : option string;
  resizerBtn : option string
}.

Definition set_logos (st : State) : State :=
  {| logos := map (fun src => if is_empty logoUrl then src else logoUrl) (logos st);
     homeBtn := homeBtn st; resizerBtn := resizerBtn st |}.

Definition set_links (home resizer : string) (st : State) : State :=
  {| logos := logos st;
     homeBtn := option_map (fun _ => home) (homeBtn st);
     resizerBtn := option_map (fun _ => resizer) (resizerBtn st) |}.

Definition me_request (loc : Location) : Request :=
  {| url := origin loc +:+ "/api/me"; method := "GET"; req_headers := [];
     credentials := Some "include"; req_body := NoBody |}.

(** The [DOMContentLoaded] handler. *)
Definition on_DOMContentLoaded : M State unit :=
  modify_dom set_logos ;;
  st <- get_dom ;;
  match homeBtn st, resizerBtn st with
  | None, None => ret tt
  | _, _ =>
      try_catch
        (env <- ask ;;
         response <- fetch (me_request (location env)) ;;
         let isLoggedIn := ok response in
         modify_dom
           (set_links (if isLoggedIn then "Landing.html" else "index.html")
                      (if isLoggedIn then "Landing.html" else "login.html")))
        (fun _ => modify_dom (set_links "index.html" "login.html"))
  end.
End Assets.

(** ** editor.js: bridge to the image editor widget *)

Module Editor.

Definition API_BASE (loc : Location) : string :=
  if IS_LOCAL loc then loopback_base else origin loc.

Record State : Type := {
  statusEl : option string;                 (* textContent, if present *)
  downloads : list (string * string)        (* clicked links: href, download *)
}.

Definition setStatus (message : string) (st : State) : State :=
  {| statusEl := option_map (fun _ => message) (statusEl st);
     downloads := downloads st |}.

Definition click_link (href download : string) (st : State) : State :=
  {| statusEl := statusEl st;
     downloads := (downloads st ++ [(href, download)])%list |}.

(** [atob]: forgiving base64 decoding. *)
Definition b64_value (c : ascii) : option nat :=
  let n := nat_of_ascii c in
  if Nat.leb 65 n && Nat.leb n 90 then Some (n - 65)
  else if Nat.leb 97 n && Nat.leb n 122 then Some (n - 71)
  else if Nat.leb 48 n && Nat.leb n 57 then Some (n + 4)
  else if Nat.eqb n 43 then Some 62
  else if Nat.eqb n 47 then Some 63
  else None.

Definition is_ascii_whitespace (c : ascii) : bool :=
  let n := nat_of_ascii c in
  Nat.eqb n 9 || Nat.eqb n 10 || Nat.eqb n 12 || Nat.eqb n 13 || Nat.eqb n 32.

Definition strip_padding (l : list ascii) : list ascii :=
  if Nat.eqb (length l mod 4) 0 then
    match rev l with
    | a :: b :: r =>
        if Ascii.eqb a "=" then
          if Ascii.eqb b "=" then rev r else rev (b :: r)
        else l
    | _ => l
    end
  else l.

Fixpoint sextets (l : list ascii) : option (list nat) :=
  match l with
  | [] => Some []
  | c :: rest =>
      match b64_value c, sextets rest with
      | Some v, Some vs => Some (v :: vs)
      | _, _ => None
      end
  end.

Fixpoint decode_sextets (l : list nat) : string :=
  match l with
  | a :: b :: c :: d :: rest =>
      String (ascii_of_nat (a * 4 + b / 16))
        (String (ascii_of_nat ((b mod 16) * 16 + c / 4))
           (String (ascii_of_nat ((c mod 4) * 64 + d)) (decode_sextets rest)))
  | [a; b; c] =>
      String (ascii_of_nat (a * 4 + b / 16))
        (str1 (ascii_of_nat ((b mod 16) * 16 + c / 4)))
  | [a; b] => str1 (ascii_of_nat (a * 4 + b / 16))
  | _ => EmptyString
  end.

Definition atob (s : string) : option string :=
  let data :=
    strip_padding
      (filter (fun c => negb (is_ascii_whitespace c)) (list_ascii_of_string s)) in
  if Nat.eqb (length data mod 4) 1 then None
  else option_map decode_sextets (sextets data).

(** [dataUrl.split(",")]: the first part, and the second when there is a
    comma. *)
Fixpoint until_comma (s : string) : string * option string :=
  match s with
  | EmptyString => (EmptyString, None)
  | String c rest =>
      if Ascii.eqb c "," then (EmptyString, Some rest)
      else let (head, tail) := until_comma rest in (String c head, tail)
  end.

Definition split_comma (s : string) : string * option string :=
  match until_comma s with
  | (part0, Some rest) => (part0, Some (fst (until_comma rest)))
  | (part0, None) => (part0, None)
  end.

(** The first capture of the mime pattern: the text between a colon and the
    nearest semicolon after it on the same line, for the leftmost colon that
    has one. *)
Fixpoint until_semicolon (s : string) : option string :=
  match s with
  | EmptyString => None
  | String c rest =>
      if Ascii.eqb c ";" then Some EmptyString
      else if Ascii.eqb c newline || Ascii.eqb c (ascii_of_nat 13) then None
      else option_map (String c) (until_semicolon rest)
  end.

Fixpoint mime_match (s : string) : option string :=
  match s with
  | EmptyString => None
  | String c rest =>
      if Ascii.eqb c ":" then
        match until_semicolon rest with
        | Some m => Some m
        | None => mime_match rest
        end
      else mime_match rest
  end.

Definition ascii_lower (c : ascii) : ascii :=
  let n := nat_of_ascii c in
  if Nat.leb 65 n && Nat.leb n 90 then ascii_of_nat (n + 32) else c.

Fixpoint map_string (f : ascii -> ascii) (s : string) : string :=
  match s with
  | EmptyString => EmptyString
  | String c rest => String (f c) (map_string f rest)
  end.

(** The type a [Blob] keeps: lower case, or empty when a character lies
    outside the printable ASCII range. *)
Definition blob_type_of (t : string) : string :=
  if all_chars (fun c => Nat.leb 32 (nat_of_ascii c) && Nat.leb (nat_of_ascii c) 126) t
  then map_string ascii_lower t else EmptyString.

(** The argument [atob] receives: [parts[1]], which is [undefined] (and
    reads as that word) when the URL has no comma. *)
Definition payload (dataUrl : string) : string :=
  match snd (split_comma dataUrl) with
  | Some part1 => part1
  | None => "undefined"
  end.

Definition dataUrlToBlob (dataUrl : string) : M State Blob :=
  let parts := split_comma dataUrl in
  match atob (payload dataUrl) with
  | None => throw_platform InvalidCharacter
  | Some byteString =>
      let mime :=
        match mime_match (fst parts) with
        | Some m => m
        | None => "image/jpeg"
        end in
      ret {| blob_bytes := byteString; blob_type := blob_type_of mime |}
  end.

Definition export_file (blob : Blob) (now : Z) : File :=
  let filename := "pixelfit_edit_" +:+ decimal now +:+ ".jpeg" in
  {| name := filename; type := "image/jpeg"; contents := blob_bytes blob |}.

Definition resize_request (loc : Location) (formData : FormData) : Request :=
  {| url := API_BASE loc +:+ "/resize"; method := "POST"; req_headers := [];
     credentials := Some "include"; req_body := Multipart formData |}.

(** The [click] handler of [exportBtn]. *)
Definition on_export_click : M State unit :=
  try_catch
    (modify_dom (setStatus "Exporting and generating sizes...") ;;
     env <- ask ;;
     dataUrl <- (match toDataURL env with
                 | Ok d => ret d
                 | Throw e => throw e
                 end) ;;
     blob <- dataUrlToBlob dataUrl ;;
     let file := export_file blob (now env) in
     let formData : FormData := [("files", FormFile file (name file))] in
     response <- fetch (resize_request (location env) formData) ;;
     if negb (ok response) then
       message <- Response_text response ;;
       modify_dom (setStatus ("Resize failed: " +:+ message))
     else
       zipBlob <- Response_blob response ;;
       downloadUrl <- createObjectURL zipBlob ;;
       modify_dom (click_link downloadUrl "pixelfit_resized_images.zip") ;;
       revokeObjectURL downloadUrl ;;
       modify_dom (setStatus "Your ZIP is ready."))
    (fun _ => modify_dom (setStatus "Something went wrong while exporting.")).

(** [reader.readAsDataURL(file)] for a file that has a type: the type and
    the base64 text of the bytes. *)
Definition b64_char (v : nat) : ascii :=
  if Nat.ltb v 26 then ascii_of_nat (65 + v)
  else if Nat.ltb v 52 then ascii_of_nat (71 + v)
  else if Nat.ltb v 62 then ascii_of_nat (v - 4)
  else if Nat.eqb v 62 then "+" else "/".

Fixpoint encode_bytes (l : list nat) : list ascii :=
  match l with
  | a :: b :: c :: rest =>
      b64_char (a / 4) :: b64_char ((a mod 4) * 16 + b / 16)
        :: b64_char ((b mod 16) * 4 + c / 64) :: b64_char (c mod 64)
        :: encode_bytes rest
  | [a; b] =>
      [b64_char (a / 4); b64_char ((a mod 4) * 16 + b / 16);
       b64_char ((b mod 16) * 4); "="%char]
  | [a] => [b64_char (a / 4); b64_char ((a mod 4) * 16); "="%char; "="%char]
  | [] => []
  end.


Definition btoa (bytes : string) : string :=
  string_of_list_ascii (encode_bytes (map nat_of_ascii (list_ascii_of_string bytes))).

Definition readAsDataURL (file : File) : string :=
  "data:" +:+ type file +:+ ";base64," +:+ btoa (contents file).

(** The type test of the upload handler: the type holds [image/png] or
    [image/jpeg] somewhere. *)
Fixpoint contains (s p : string) : bool :=
  startsWith s p ||
  match s with
  | EmptyString => false
  | String _ rest => contains rest p
  end.

Definition is_png_or_jpeg (t : string) : bool :=
  contains t "image/png" || contains t "image/jpeg".

(** The calls the upload handler makes on the editor widget: the images it
    asks the widget to load (data URL and name), in order, and how often it
    clears the undo stack. *)
Record Widget : Type := {
  load_calls : list (string * string);
  undo_clears : nat
}.

Definition call_load (dataUrl name : string) (page : State * Widget) : State * Widget :=
  (fst page,
   {| load_calls := (load_calls (snd page) ++ [(dataUrl, name)])%list;
      undo_clears := undo_clears (snd page) |}).

Definition clearUndoStack (page : State * Widget) : State * Widget :=
  (fst page,
   {| load_calls := load_calls (snd page); undo_clears := S (undo_clears (snd page)) |}).

Definition set_upload_status (message : string) (page : State * Widget) : State * Widget :=
  (setStatus message (fst page), snd page).

(** The [change] handler of [uploadInput] together with the [onload]
    callback of its reader; [load_result] is how the widget answers
    [loadImageFromURL]. *)
Definition on_upload_change (files : list File) (load_result : outcome unit)
  : M (State * Widget) unit :=
  match files with
  | [] => ret tt
  | file :: _ =>
      if negb (is_png_or_jpeg (type file)) then
        modify_dom (set_upload_status "Please upload a PNG or JPG file.")
      else
        let dataUrl := readAsDataURL file in
        try_catch
          (modify_dom (call_load dataUrl (name file)) ;;
           (match load_result with
            | Ok _ => ret tt
            | Throw e => throw e
            end) ;;
           modify_dom clearUndoStack ;;
           modify_dom (set_upload_status ("Editing: " +:+ name file)))
          (fun _ =>
             modify_dom (set_upload_status "Unable to load the image. Try again."))
  end.
End Editor.

(** ** Reading of the specification's wording

    The specification speaks of a file name with its final extension
    removed.  The final extension of a name is the text after its last dot,
    provided that text is not empty and holds no path separator. *)

Module Spec.

(** The name split at its last dot: what precedes it and what follows. *)
Fixpoint split_last_dot (s : string) : option (string * string) :=
  match s with
  | EmptyString => None
  | String c rest =>
      match split_last_dot rest with
      | Some (stem, ext) => Some (String c stem, ext)
      | None => if Ascii.eqb c "." then Some (EmptyString, rest) else None
      end
  end.

Definition is_extension (ext : string) : bool :=
  negb (is_empty ext) && all_chars (fun c => negb (Ascii.eqb c "/")) ext.

Definition without_final_extension (name : string) : string :=
  match split_last_dot name with
  | Some (stem, ext) => if is_extension ext then stem else name
  | None => name
  end.

Definition or_image (base : string) : string :=
  if is_empty base then "image" else base.

(** Some pending entry has an empty folder name. *)
Definition some_empty (entries : list App.Entry) : Prop :=
  exists entry, In entry entries /\ App.mainFolder entry = EmptyString.
End Spec.

(** ** Sample pages, replies and environments *)

Definition local_page : Location :=
  {| hostname := "localhost"; origin := "http://localhost:5500";
     pathname := "/app.html" |}.

Definition deployed_page : Location :=
  {| hostname := "desto374.github.io"; origin := "https://desto374.github.io";
     pathname := "/Image-Resizer/app.html" |}.

Module Examples.

(** Messages of one browser for the platform errors. *)
Definition messages (pe : platform_error) : string :=
  match pe with
  | BodyAlreadyRead =>
      "Failed to execute 'text' on 'Response': body stream already read"
  | JsonSyntax => "Unexpected token in JSON"
  | PropertyOfNullish => "Cannot read properties of null"
  | NotAFunction => "email.split is not a function"
  | InvalidCharacter => "The string to be decoded is not correctly encoded."
  end.

Definition failed_to_fetch : exn := Exn "TypeError" "Failed to fetch".

Definition bad_gateway : Response :=
  {| ok := false; status := 502; content_type := "text/plain";
     body := Bytes "Bad Gateway" None |}.

Definition bad_image : Response :=
  {| ok := false; status := 422; content_type := "application/json";
     body :=
       Bytes ("{" +:+ str1 dquote +:+ "detail" +:+ str1 dquote +:+ ": "
                +:+ str1 dquote +:+ "bad image" +:+ str1 dquote +:+ "}")
         (Some (JObj [("detail", JStr "bad image")])) |}.

Definition unauthorized : Response :=
  {| ok := false; status := 401; content_type := "application/json";
     body :=
       Bytes ("{" +:+ str1 dquote +:+ "detail" +:+ str1 dquote +:+ ": "
                +:+ str1 dquote +:+ "Not authenticated" +:+ str1 dquote +:+ "}")
         (Some (JObj [("detail", JStr "Not authenticated")])) |}.

Definition zip_reply : Response :=
  {| ok := true; status := 200; content_type := "application/zip";
     body := Bytes "PK" None |}.

(** A JPEG data URL as the widget exports it, and the bytes it encodes. *)
Definition jpeg_data_url : string := "data:image/jpeg;base64,/9j/4A==".
Definition jpeg_bytes : string :=
  String (ascii_of_nat 255) (String (ascii_of_nat 216)
    (String (ascii_of_nat 255) (String (ascii_of_nat 224) EmptyString))).

Definition env_at (loc : Location) (reply : FetchReply) (answer : bool) : Env :=
  {| location := loc; authToggle := None; net := fun _ => reply;
     confirm_answer := fun _ => answer; now := 1700000000000;
     toDataURL := Ok jpeg_data_url; platform_message := messages |}.

Definition toggle_off (env : Env) : Env :=
  {| location := location env; authToggle := Some "off"; net := net env;
     confirm_answer := confirm_answer env; now := now env;
     toDataURL := toDataURL env; platform_message := platform_message env |}.

Definition assets : App.Assets :=
  {| App.femaleProfileUrl := "/Image/Female Profile.png";
     App.maleProfileUrl := "/Image/Male Profile.png" |}.

Definition photo : File :=
  {| name := "photo.png"; type := "image/png"; contents := "pixels" |}.

Definition fresh_app : App.State :=
  {| App.badge :=
       {| App.profile_hidden := Some true; App.authActions_hidden := Some false;
          App.profileUsername := Some EmptyString;
          App.profileName := Some EmptyString;
          App.profileAvatar :=
            Some {| App.src := EmptyString; App.img_display := "none" |};
          App.profileAvatarFallback :=
            Some {| App.span_text := EmptyString; App.span_display := "block" |} |};
     App.fileList := []; App.processBtn_disabled := true;
     App.progressFill_width := "0%"; App.statusText := EmptyString;
     App.downloadArea := []; App.filesState := [] |}.

(** The upload page after the selection of one file. *)
Definition one_photo : Page App.State :=
  Build_Page (App.on_change [photo] fresh_app) initial_window.

Definition photo_entry : App.Entry :=
  {| App.file := photo; App.mainFolder := "photo" |}.

(** The user clears the folder name of the first card, leaving spaces. *)
Definition blank_edit : App.InputTarget :=
  {| App.tagName := "INPUT"; App.index_number := App.Index 0;
     App.dataset_field := Some "mainFolder"; App.value := "   " |}.

Definition profile_page : Page Profile.State :=
  Build_Page
    {| Profile.userPanel_hidden := true; Profile.userGreeting := EmptyString;
       Profile.usernameInput_value := EmptyString;
       Profile.usernameMessage := EmptyString;
       Profile.usernameMessage_tone := EmptyString |}
    initial_window.

(** The profile page with a name typed into the form. *)
Definition named_profile_page : Page Profile.State :=
  Build_Page
    {| Profile.userPanel_hidden := false; Profile.userGreeting := EmptyString;
       Profile.usernameInput_value := " ann ";
       Profile.usernameMessage := EmptyString;
       Profile.usernameMessage_tone := EmptyString |}
    initial_window.

(** A 2xx reply without a body, and a 409 reply with a detail. *)
Definition no_content : Response :=
  {| ok := true; status := 204; content_type := EmptyString; body := NullBody |}.



Definition auth_page : Page Auth.State :=
  Build_Page {| Auth.authMessage := Some (EmptyString, EmptyString) |} initial_window.

Definition shared_page : Page Assets.State :=
  Build_Page
    {| Assets.logos := ["old.png"]; Assets.homeBtn := Some "#";
       Assets.resizerBtn := Some "#" |}
    initial_window.

(** A widget that exports a data URL without a payload. *)
Definition broken_widget (env : Env) : Env :=
  {| location := location env; authToggle := authToggle env; net := net env;
     confirm_answer := confirm_answer env; now := now env;
     toDataURL := Ok "data:image/jpeg;base64";
     platform_message := platform_message env |}.

Definition upload_page : Page (Editor.State * Editor.Widget) :=
  Build_Page
    ({| Editor.statusEl := Some EmptyString; Editor.downloads := [] |},
     {| Editor.load_calls := []; Editor.undo_clears := 0 |})
    initial_window.

Definition editor_page : Page Editor.State :=
  Build_Page {| Editor.statusEl := Some EmptyString; Editor.downloads := [] |}
    initial_window.
End Examples.

(** * Properties *)

#[local] Arguments App.resize_request : simpl never.
#[local] Arguments App.build_form : simpl never.
#[local] Arguments String.append : simpl never.
#[local] Arguments decimal : simpl never.

Lemma nonempty_length {A} (l : list A) : l <> [] -> Nat.eqb (length l) 0 = false.
Proof. destruct l; [congruence | reflexivity]. Qed.

(** Unfolding of the monadic plumbing, leaving the page operations folded. *)
Ltac plumbing :=
  repeat progress
    (cbv beta iota zeta delta
       [bind ret throw throw_platform try_catch try_finally ask get_dom modify_dom
        get_win modify_win fetch navigate confirm consume_body Response_json
        Response_text Response_blob createObjectURL revokeObjectURL get_prop];
     cbn [dom win fst snd negb bodyUsed sent href prompts objectURLs revokedURLs
          set_bodyUsed set_sent set_href set_prompts set_objectURLs
          set_revokedURLs]).

Ltac click_start Hne :=
  unfold App.on_process_click; plumbing;
  rewrite (nonempty_length _ Hne); plumbing;
  cbn [App.filesState App.setProgress App.updateStatus App.set_statusText
       App.set_progressFill_width App.set_downloadArea App.set_processBtn_disabled].

(** ** Environment Resolver *)

Lemma IS_LOCAL_true (loc : Location) :
  hostname loc = "localhost" \/ hostname loc = "127.0.0.1" -> IS_LOCAL loc = true.
Proof.
  unfold IS_LOCAL. intros [H | H]; rewrite H; reflexivity.
Qed.

Lemma IS_LOCAL_false (loc : Location) :
  hostname loc <> "localhost" -> hostname loc <> "127.0.0.1" -> IS_LOCAL loc = false.
Proof.
  unfold IS_LOCAL. intros H1 H2.
  apply String.eqb_neq in H1. apply String.eqb_neq in H2.
  rewrite H1, H2. reflexivity.
Qed.

(** C5. On the hosts [localhost] and [127.0.0.1] every script resolves the
    backend base to the loopback address; on any other host app.js and
    editor.js take the page's own origin, while profile.js and the
    authentication script take their hard-coded production origins. *)
Theorem C5_environment_resolver (loc : Location) :
  (hostname loc = "localhost" \/ hostname loc = "127.0.0.1" ->
   App.API_BASE loc = "http://127.0.0.1:8000" /\
   Editor.API_BASE loc = "http://127.0.0.1:8000" /\
   Profile.API_BASE loc = "http://127.0.0.1:8000" /\
   Auth.API_BASE loc = "http://127.0.0.1:8000") /\
  (hostname loc <> "localhost" -> hostname loc <> "127.0.0.1" ->
   App.API_BASE loc = origin loc /\
   Editor.API_BASE loc = origin loc /\
   Profile.API_BASE loc = "https://image-resizer-rxnr.onrender.com" /\
   Auth.API_BASE loc = "https://image-resizer-deao.onrender.com").
Proof.
  split.
  - intros H. apply IS_LOCAL_true in H.
    unfold App.API_BASE, Editor.API_BASE, Profile.API_BASE, Auth.API_BASE.
    rewrite H. repeat split.
  - intros H1 H2. pose proof (IS_LOCAL_false loc H1 H2) as H.
    unfold App.API_BASE, Editor.API_BASE, Profile.API_BASE, Auth.API_BASE.
    rewrite H. repeat split.
Qed.

Lemma C5_environment_resolver_witness :
  (App.API_BASE local_page = "http://127.0.0.1:8000" /\
   Editor.API_BASE local_page = "http://127.0.0.1:8000" /\
   Profile.API_BASE local_page = "http://127.0.0.1:8000" /\
   Auth.API_BASE local_page = "http://127.0.0.1:8000") /\
  (App.API_BASE deployed_page = "https://desto374.github.io" /\
   Editor.API_BASE deployed_page = "https://desto374.github.io" /\
   Profile.API_BASE deployed_page = "https://image-resizer-rxnr.onrender.com" /\
   Auth.API_BASE deployed_page = "https://image-resizer-deao.onrender.com").
Proof.
  split.
  - apply (proj1 (C5_environment_resolver local_page)). left. reflexivity.
  - apply (proj2 (C5_environment_resolver deployed_page)); simpl; discriminate.
Defined.

(** ** File names *)

Lemma no_dot_split (s : string) :
  all_chars App.is_ext_char s = true -> Spec.split_last_dot s = None.
Proof.
  induction s as [| c rest IH]; simpl; [reflexivity |].
  unfold App.is_ext_char at 1. intros H.
  apply andb_prop in H as [Hc Hrest]. apply andb_prop in Hc as [_ Hdot].
  rewrite (IH Hrest). apply negb_true_iff in Hdot. rewrite Hdot. reflexivity.
Qed.

Lemma split_none_no_dot (s : string) :
  Spec.split_last_dot s = None ->
  all_chars App.is_ext_char s = all_chars (fun c => negb (Ascii.eqb c "/")) s.
Proof.
  induction s as [| c rest IH]; simpl; [reflexivity |].
  destruct (Spec.split_last_dot rest) as [[stem ext] |] eqn:E; [discriminate |].
  destruct (Ascii.eqb c ".") eqn:Ec; [discriminate |].
  intros _. rewrite (IH eq_refl). unfold App.is_ext_char. rewrite Ec.
  rewrite andb_true_r. reflexivity.
Qed.

(** The regular-expression replacement of [formatFileName] removes exactly
    the final extension. *)
Lemma replace_ext_spec (s : string) :
  App.replace_ext s = Spec.without_final_extension s.
Proof.
  induction s as [| c rest IH]; [reflexivity |].
  unfold Spec.without_final_extension.
  change (App.replace_ext (String c rest))
    with (if App.ext_match_here (String c rest) then EmptyString
          else String c (App.replace_ext rest)).
  destruct (App.ext_match_here (String c rest)) eqn:Em.
  - simpl in Em. apply andb_prop in Em as [Em Hall].
    apply andb_prop in Em as [Hc Hne].
    simpl. rewrite (no_dot_split rest Hall), Hc.
    unfold Spec.is_extension. rewrite Hne.
    rewrite <- (split_none_no_dot rest (no_dot_split rest Hall)), Hall.
    reflexivity.
  - rewrite IH. unfold Spec.without_final_extension. simpl.
    destruct (Spec.split_last_dot rest) as [[stem ext] |] eqn:E.
    + destruct (Spec.is_extension ext); reflexivity.
    + destruct (Ascii.eqb c ".") eqn:Ec; [| reflexivity].
      simpl in Em. rewrite Ec in Em. simpl in Em.
      unfold Spec.is_extension.
      rewrite <- (split_none_no_dot rest E), Em. reflexivity.
Qed.

Lemma formatFileName_spec (name : string) :
  App.formatFileName name = Spec.or_image (Spec.without_final_extension name).
Proof.
  unfold App.formatFileName, Spec.or_image. rewrite replace_ext_spec. reflexivity.
Qed.

Lemma formatFileName_examples :
  map App.formatFileName
    ["photo.png"; "archive.tar.gz"; ".png"; "README"; "draft."; EmptyString] =
  ["photo"; "archive.tar"; "image"; "README"; "draft."; "image"].
Proof. reflexivity. Qed.

(** In a name without a slash the final extension is whatever follows the
    last dot, if anything does. *)
Lemma without_final_extension_plain (name : string) :
  all_chars (fun c => negb (Ascii.eqb c "/")) name = true ->
  Spec.without_final_extension name =
  match Spec.split_last_dot name with
  | Some (stem, ext) => if is_empty ext then name else stem
  | None => name
  end.
Proof.
  intros Hplain. unfold Spec.without_final_extension, Spec.is_extension.
  destruct (Spec.split_last_dot name) as [[stem ext] |] eqn:E; [| reflexivity].
  assert (Hext : all_chars (fun c => negb (Ascii.eqb c "/")) ext = true).
  { clear - E Hplain. revert stem ext E.
    induction name as [| c rest IH]; simpl in *; [discriminate |].
    apply andb_prop in Hplain as [_ Hrest]. intros stem ext.
    destruct (Spec.split_last_dot rest) as [[stem' ext'] |].
    - intros H. injection H as <- <-. apply (IH Hrest stem' ext'). reflexivity.
    - destruct (Ascii.eqb c "."); [| discriminate].
      intros H. injection H as <- <-. exact Hrest. }
  rewrite Hext, andb_true_r. destruct (is_empty ext); reflexivity.
Qed.

(** What [split_last_dot] returns is a split of the name at a dot, and no
    dot follows that one. *)
Lemma split_last_dot_sound (s stem ext : string) :
  Spec.split_last_dot s = Some (stem, ext) ->
  s = stem +:+ "." +:+ ext /\
  all_chars (fun c => negb (Ascii.eqb c ".")) ext = true.
Proof.
  revert stem ext. induction s as [| c rest IH]; simpl; [discriminate |].
  intros stem ext.
  destruct (Spec.split_last_dot rest) as [[stem' ext'] |] eqn:E.
  - intros H. injection H as <- <-. destruct (IH _ _ eq_refl) as [-> Hall].
    split; [reflexivity | exact Hall].
  - destruct (Ascii.eqb c ".") eqn:Ec; [| discriminate].
    intros H. injection H as <- <-. apply Ascii.eqb_eq in Ec. subst c.
    split; [reflexivity |].
    clear IH. induction rest as [| d rest IH]; simpl in *; [reflexivity |].
    destruct (Spec.split_last_dot rest) as [[? ?] |]; [discriminate |].
    destruct (Ascii.eqb d "."); [discriminate |]. simpl. apply IH. reflexivity.
Qed.

Lemma on_change_filesState (files : list File) (st : App.State) :
  App.filesState (App.on_change files st) =
  map (fun f => {| App.file := f; App.mainFolder := App.formatFileName (name f) |})
    files.
Proof.
  unfold App.on_change, App.renderFiles. simpl.
  destruct (Nat.eqb _ 0); reflexivity.
Qed.

(** C2. A selection of files yields one pending entry per file, in the order
    of the selection; the folder name of each entry is the file's name without
    its final extension, or [image] when nothing is left of the name. *)
Theorem C2_selection_builds_entries (files : list File) (st : App.State) :
  length (App.filesState (App.on_change files st)) = length files /\
  map App.file (App.filesState (App.on_change files st)) = files /\
  map App.mainFolder (App.filesState (App.on_change files st)) =
    map (fun f => Spec.or_image (Spec.without_final_extension (name f))) files.
Proof.
  rewrite on_change_filesState. repeat split.
  - apply length_map.
  - rewrite map_map. simpl. apply map_id.
  - rewrite map_map. simpl. apply map_ext. intros f. apply formatFileName_spec.
Qed.

(** ** The process action and the pending entries *)

Lemma every_mainFolder_false (entries : list App.Entry) :
  App.every_mainFolder entries = false <-> Spec.some_empty entries.
Proof.
  unfold App.every_mainFolder, Spec.some_empty.
  induction entries as [| e rest IH]; simpl.
  - split; [discriminate | intros [x [[] _]]].
  - destruct (App.mainFolder e) eqn:Ee; simpl.
    + split; [intros _ | reflexivity]. exists e. split; [left; reflexivity | exact Ee].
    + rewrite IH. split.
      * intros [x [Hin Hx]]. exists x. split; [right; exact Hin | exact Hx].
      * intros [x [[-> | Hin] Hx]]; [congruence |]. exists x. split; assumption.
Qed.

Lemma negb_every_true (entries : list App.Entry) :
  negb (App.every_mainFolder entries) = true <-> Spec.some_empty entries.
Proof.
  rewrite negb_true_iff. apply every_mainFolder_false.
Qed.

Lemma renderFiles_filesState (st : App.State) :
  App.filesState (App.renderFiles st) = App.filesState st.
Proof.
  unfold App.renderFiles. simpl. destruct (Nat.eqb _ 0); reflexivity.
Qed.

Lemma renderFiles_disabled (st : App.State) :
  App.processBtn_disabled (App.renderFiles st) = true <->
  App.filesState st = [] \/ Spec.some_empty (App.filesState st).
Proof.
  unfold App.renderFiles. simpl.
  destruct (App.filesState st) as [| e rest] eqn:E; simpl.
  - split; [intros _; left; reflexivity | reflexivity].
  - change (negb (App.every_mainFolder (e :: rest)) = true <->
            e :: rest = [] \/ Spec.some_empty (e :: rest)).
    rewrite negb_every_true. split; [intros H; right; exact H |].
    intros [H | H]; [discriminate | exact H].
Qed.

(** A folder-name edit on a rendered input stores the trimmed text in the
    entry of that index and recomputes the state of the process button. *)
Lemma updateStateFromInputs_edit
  (target : App.InputTarget) (n : nat) (field : string) (entry : App.Entry)
  (env : Env) (p : Page App.State) :
  App.tagName target = "INPUT" ->
  App.index_number target = App.Index n ->
  App.dataset_field target = Some field ->
  is_empty field = false ->
  App.filesState (dom p) !! n = Some entry ->
  let entries :=
    <[n := App.set_property entry field (trim (App.value target))]>
      (App.filesState (dom p)) in
  App.updateStateFromInputs target env p =
    (Ok tt,
     Build_Page
       (App.set_processBtn_disabled (negb (App.every_mainFolder entries))
          (App.set_filesState entries (dom p)))
       (win p)).
Proof.
  intros Htag Hix Hfield Hne Hentry entries.
  unfold App.updateStateFromInputs.
  rewrite Htag, Hix, Hfield, Hne. simpl.
  unfold bind, get_dom. simpl. rewrite Hentry. reflexivity.
Qed.

(** Events whose target is not an input element are ignored. *)
Lemma updateStateFromInputs_other_target
  (target : App.InputTarget) (env : Env) (p : Page App.State) :
  App.tagName target <> "INPUT" ->
  App.updateStateFromInputs target env p = (Ok tt, p).
Proof.
  intros Htag. unfold App.updateStateFromInputs.
  apply String.eqb_neq in Htag. rewrite Htag. reflexivity.
Qed.

(** An index outside the sequence makes the handler throw before it changes
    anything. *)
Lemma updateStateFromInputs_out_of_range
  (target : App.InputTarget) (n : nat) (field : string)
  (env : Env) (p : Page App.State) :
  App.tagName target = "INPUT" ->
  App.index_number target = App.Index n ->
  App.dataset_field target = Some field ->
  is_empty field = false ->
  App.filesState (dom p) !! n = None ->
  App.updateStateFromInputs target env p =
    (Throw (Exn "TypeError" (platform_message env PropertyOfNullish)), p).
Proof.
  intros Htag Hix Hfield Hne Hentry.
  unfold App.updateStateFromInputs.
  rewrite Htag, Hix, Hfield, Hne. simpl.
  unfold bind, get_dom. simpl. rewrite Hentry. reflexivity.
Qed.

Lemma trim_blank (v : string) :
  all_chars is_js_space v = true -> trim v = EmptyString.
Proof.
  intros H. unfold trim.
  assert (E : trimStart v = EmptyString).
  { induction v as [| c rest IH]; simpl in *; [reflexivity |].
    apply andb_prop in H as [Hc Hrest]. rewrite Hc. apply IH, Hrest. }
  rewrite E. reflexivity.
Qed.

Lemma some_empty_insert (entries : list App.Entry) (n : nat) (entry : App.Entry) :
  n < length entries ->
  App.mainFolder entry = EmptyString ->
  Spec.some_empty (<[n := entry]> entries).
Proof.
  intros Hn He. exists entry. split; [| exact He].
  apply list_elem_of_In, list_elem_of_lookup. exists n.
  apply list_lookup_insert_eq, Hn.
Qed.

Lemma not_some_empty_insert (entries : list App.Entry) (n : nat) (entry : App.Entry) :
  App.mainFolder entry <> EmptyString ->
  (forall i e, i <> n -> entries !! i = Some e -> App.mainFolder e <> EmptyString) ->
  ~ Spec.some_empty (<[n := entry]> entries).
Proof.
  intros He Hothers [x [Hin Hx]].
  apply list_elem_of_In, list_elem_of_lookup in Hin as [i Hi].
  apply list_lookup_insert_Some in Hi as [[-> [-> _]] | [Hne Hi]].
  - exact (He Hx).
  - apply (Hothers i x); [congruence | exact Hi | exact Hx].
Qed.

(** C1, amended.  After a file selection and after a re-render the process
    button is disabled exactly when the pending sequence is empty or some
    entry has an empty folder name.  A folder-name edit stores the trimmed
    text in its entry; after it the button is disabled exactly when some entry
    has an empty folder name: an edit to blank text disables the button, and
    an edit to text that is not blank enables it when every other entry has a
    folder name. *)
Theorem C1_process_enabled_iff :
  (forall (files : list File) (st : App.State),
     App.processBtn_disabled (App.on_change files st) = true <->
     App.filesState (App.on_change files st) = [] \/
     Spec.some_empty (App.filesState (App.on_change files st))) /\
  (forall st : App.State,
     App.processBtn_disabled (App.renderFiles st) = true <->
     App.filesState (App.renderFiles st) = [] \/
     Spec.some_empty (App.filesState (App.renderFiles st))) /\
  (forall (target : App.InputTarget) (n : nat) (entry : App.Entry)
          (env : Env) (p : Page App.State),
     App.tagName target = "INPUT" ->
     App.index_number target = App.Index n ->
     App.dataset_field target = Some "mainFolder" ->
     App.filesState (dom p) !! n = Some entry ->
     exists st' : App.State,
       App.updateStateFromInputs target env p = (Ok tt, Build_Page st' (win p)) /\
       App.filesState st' =
         <[n := {| App.file := App.file entry;
                   App.mainFolder := trim (App.value target) |}]>
           (App.filesState (dom p)) /\
       (App.processBtn_disabled st' = true <->
        Spec.some_empty (App.filesState st')) /\
       (all_chars is_js_space (App.value target) = true ->
        App.processBtn_disabled st' = true) /\
       (trim (App.value target) <> EmptyString ->
        (forall i e, i <> n -> App.filesState (dom p) !! i = Some e ->
                     App.mainFolder e <> EmptyString) ->
        App.processBtn_disabled st' = false)).
Proof.
  split; [| split].
  - intros files st. unfold App.on_change.
    rewrite renderFiles_filesState. apply renderFiles_disabled.
  - intros st. rewrite renderFiles_filesState. apply renderFiles_disabled.
  - intros target n entry env p Htag Hix Hfield Hentry.
    eexists. split; [| split; [| split; [| split]]].
    + apply (updateStateFromInputs_edit target n "mainFolder" entry env p);
        auto.
    + reflexivity.
    + simpl. apply negb_every_true.
    + intros Hblank. simpl. apply negb_every_true.
      apply some_empty_insert.
      * apply lookup_lt_Some in Hentry. exact Hentry.
      * simpl. apply trim_blank, Hblank.
    + intros Hvalue Hothers. simpl.
      destruct (negb (App.every_mainFolder _)) eqn:E; [| reflexivity].
      apply negb_every_true in E. exfalso. revert E.
      apply not_some_empty_insert; [exact Hvalue | exact Hothers].
Qed.

Lemma C1_process_enabled_iff_witness :
  exists st' : App.State,
    App.updateStateFromInputs Examples.blank_edit
      (Examples.env_at deployed_page (Resolved Examples.zip_reply) true)
      Examples.one_photo = (Ok tt, Build_Page st' (win Examples.one_photo)) /\
    App.processBtn_disabled st' = true.
Proof.
  destruct (proj2 (proj2 C1_process_enabled_iff)
              Examples.blank_edit 0 Examples.photo_entry
              (Examples.env_at deployed_page (Resolved Examples.zip_reply) true)
              Examples.one_photo eq_refl eq_refl eq_refl eq_refl)
    as [st' [Hrun [_ [_ [Hblank _]]]]].
  exists st'. split; [exact Hrun | apply Hblank; reflexivity].
Defined.

(** C1 as stated fails on the empty sequence: after a selection of no file
    the button is disabled although no entry has an empty folder name. *)
Lemma C1_counterexample :
  ~ (App.processBtn_disabled (App.on_change [] Examples.fresh_app) = true <->
     Spec.some_empty (App.filesState (App.on_change [] Examples.fresh_app))).
Proof.
  intros [H _]. destruct (H eq_refl) as [entry [Hin _]]. exact Hin.
Qed.

(** ** The process click *)

Lemma collect_from (entries : list App.Entry) (form : FormData) (names : list string) :
  fold_left
    (fun (acc : FormData * list string) entry =>
       ((fst acc ++ [("files", FormFile (App.file entry) (name (App.file entry)))])%list,
        (snd acc ++ [App.mainFolder entry])%list))
    entries (form, names) =
  ((form ++ map (fun entry => ("files", FormFile (App.file entry) (name (App.file entry))))
             entries)%list,
   (names ++ map App.mainFolder entries)%list).
Proof.
  revert form names. induction entries as [| e rest IH]; intros form names; simpl.
  - rewrite !app_nil_r. reflexivity.
  - rewrite IH. simpl. rewrite <- !app_assoc. reflexivity.
Qed.

Lemma build_form_spec (entries : list App.Entry) :
  App.build_form entries =
  (map (fun entry => ("files", FormFile (App.file entry) (name (App.file entry))))
     entries
   ++ [("base_names", FormString (App.JSON_stringify (map App.mainFolder entries)));
       ("main_folder", FormString (App.JSON_stringify (map App.mainFolder entries)))])%list.
Proof.
  unfold App.build_form, App.collect. rewrite collect_from. simpl.
  rewrite <- app_assoc. reflexivity.
Qed.

Lemma JSON_stringify_example :
  App.JSON_stringify ["photo"; "my folder"] =
  "[" +:+ str1 dquote +:+ "photo" +:+ str1 dquote +:+ ","
      +:+ str1 dquote +:+ "my folder" +:+ str1 dquote +:+ "]".
Proof. reflexivity. Qed.

Lemma process_click_sent (env : Env) (p : Page App.State) :
  App.filesState (dom p) <> [] ->
  sent (win (snd (App.on_process_click env p))) =
  (sent (win p)
     ++ [App.resize_request (location env) (App.build_form (App.filesState (dom p)))])%list.
Proof.
  intros Hne. click_start Hne.
  destruct (net env _) as [e | r]; plumbing; [reflexivity |].
  destruct (ok r); plumbing.
  - destruct (body r); plumbing; reflexivity.
  - unfold App.error_detail. plumbing.
    destruct (body r) as [| text [j |]]; plumbing; try reflexivity.
    destruct j; plumbing; reflexivity.
Qed.

(** C6. With at least one pending entry, a process click sends one POST to
    [{apiBase}/resize] whose multipart form holds every file under the field
    [files], in the order of the sequence, followed by the JSON array of all
    folder names, in that order, under [base_names] and again under
    [main_folder]. *)
Theorem C6_process_request (env : Env) (p : Page App.State) :
  App.filesState (dom p) <> [] ->
  sent (win (snd (App.on_process_click env p))) =
  (sent (win p) ++
   [{| url := App.API_BASE (location env) +:+ "/resize";
       method := "POST";
       req_headers := [];
       credentials := None;
       req_body :=
         Multipart
           (map (fun entry => ("files", FormFile (App.file entry) (name (App.file entry))))
              (App.filesState (dom p))
            ++ [("base_names",
                 FormString (App.JSON_stringify (map App.mainFolder (App.filesState (dom p)))));
                ("main_folder",
                 FormString (App.JSON_stringify (map App.mainFolder (App.filesState (dom p)))))])
     |}])%list.
Proof.
  intros Hne. rewrite (process_click_sent env p Hne).
  unfold App.resize_request. rewrite build_form_spec. reflexivity.
Qed.

Lemma C6_process_request_witness :
  sent (win (snd (App.on_process_click
                    (Examples.env_at deployed_page (Resolved Examples.zip_reply) true)
                    Examples.one_photo))) =
  [{| url := "https://desto374.github.io/resize"; method := "POST";
      req_headers := []; credentials := None;
      req_body :=
        Multipart
          [("files", FormFile Examples.photo "photo.png");
           ("base_names", FormString (App.JSON_stringify ["photo"]));
           ("main_folder", FormString (App.JSON_stringify ["photo"]))] |}].
Proof.
  refine (C6_process_request
            (Examples.env_at deployed_page (Resolved Examples.zip_reply) true)
            Examples.one_photo _).
  simpl. discriminate.
Defined.

(** C4. When the reply to the process request is 2xx, the download area holds
    exactly one card, shown and downloaded as [resized_images.zip], the
    progress bar is at 100% and the button is enabled again. *)
Theorem C4_success_download (env : Env) (p : Page App.State) (r : Response) :
  App.filesState (dom p) <> [] ->
  net env (App.resize_request (location env) (App.build_form (App.filesState (dom p))))
    = Resolved r ->
  ok r = true ->
  fst (App.on_process_click env p) = Ok tt /\
  App.downloadArea (dom (snd (App.on_process_click env p))) =
    [{| App.label_text := "resized_images.zip";
        App.link_href := "blob:" +:+ decimal (Z.of_nat (length (objectURLs (win p))));
        App.link_download := "resized_images.zip";
        App.link_text := "Download zip" |}] /\
  App.progressFill_width (dom (snd (App.on_process_click env p))) = "100%" /\
  App.statusText (dom (snd (App.on_process_click env p))) =
    "All images processed and ready for download!" /\
  App.processBtn_disabled (dom (snd (App.on_process_click env p))) = false /\
  objectURLs (win (snd (App.on_process_click env p))) =
    (objectURLs (win p)
       ++ [{| blob_bytes := body_text r; blob_type := content_type r |}])%list.
Proof.
  intros Hne Hnet Hok. click_start Hne. rewrite Hnet. plumbing.
  rewrite Hok. plumbing. unfold body_text, App.createDownloadCard.
  destruct (body r) as [| text parsed]; plumbing; repeat split.
Qed.

Lemma C4_success_download_witness :
  App.downloadArea
    (dom (snd (App.on_process_click
                 (Examples.env_at deployed_page (Resolved Examples.zip_reply) true)
                 Examples.one_photo))) =
    [{| App.label_text := "resized_images.zip"; App.link_href := "blob:0";
        App.link_download := "resized_images.zip";
        App.link_text := "Download zip" |}] /\
  App.progressFill_width
    (dom (snd (App.on_process_click
                 (Examples.env_at deployed_page (Resolved Examples.zip_reply) true)
                 Examples.one_photo))) = "100%".
Proof.
  destruct (C4_success_download
              (Examples.env_at deployed_page (Resolved Examples.zip_reply) true)
              Examples.one_photo Examples.zip_reply
              ltac:(simpl; discriminate) eq_refl eq_refl)
    as [_ [Harea [Hwidth _]]].
  split; [exact Harea | exact Hwidth].
Defined.

(** A non-2xx reply whose body parses to an object with a truthy [detail]
    shows that detail. *)
Lemma process_click_detail
  (env : Env) (p : Page App.State) (r : Response) (text : string)
  (members : list (string * JSON)) (detail : JSON) :
  App.filesState (dom p) <> [] ->
  net env (App.resize_request (location env) (App.build_form (App.filesState (dom p))))
    = Resolved r ->
  ok r = false ->
  body r = Bytes text (Some (JObj members)) ->
  lookup_member "detail" members = Value detail ->
  truthy (Value detail) = true ->
  App.statusText (dom (snd (App.on_process_click env p))) =
    "Error: " +:+ JSON_toString detail.
Proof.
  intros Hne Hnet Hok Hbody Hdetail Htruthy. click_start Hne. rewrite Hnet. plumbing.
  rewrite Hok. plumbing. unfold App.error_detail. plumbing.
  rewrite Hbody. plumbing. rewrite Hdetail. unfold js_or. rewrite Htruthy.
  reflexivity.
Qed.

(** C3, at the failing replies.  A non-2xx reply whose body is not JSON:
    [response.json()] has read the body, so the [response.text()] of the
    fallback is rejected, and the status line shows the message of that
    rejection, whatever the text of the body. *)
Theorem C3_fallback_reads_consumed_body
  (env : Env) (p : Page App.State) (r : Response) (text : string) :
  App.filesState (dom p) <> [] ->
  net env (App.resize_request (location env) (App.build_form (App.filesState (dom p))))
    = Resolved r ->
  ok r = false ->
  body r = Bytes text None ->
  App.statusText (dom (snd (App.on_process_click env p))) =
    "Error: " +:+ platform_message env BodyAlreadyRead.
Proof.
  intros Hne Hnet Hok Hbody. click_start Hne. rewrite Hnet. plumbing.
  rewrite Hok. plumbing. unfold App.error_detail. plumbing.
  rewrite Hbody. plumbing. reflexivity.
Qed.

Lemma C3_fallback_reads_consumed_body_witness :
  App.statusText
    (dom (snd (App.on_process_click
                 (Examples.env_at deployed_page (Resolved Examples.bad_gateway) true)
                 Examples.one_photo))) =
  "Error: Failed to execute 'text' on 'Response': body stream already read".
Proof.
  refine (C3_fallback_reads_consumed_body
            (Examples.env_at deployed_page (Resolved Examples.bad_gateway) true)
            Examples.one_photo Examples.bad_gateway "Bad Gateway" _ _ _ _).
  - simpl. discriminate.
  - reflexivity.
  - reflexivity.
  - reflexivity.
Defined.

(** The reply of the specification's scenario: status 422 with the detail
    [bad image]. *)
Lemma process_click_bad_image :
  App.statusText
    (dom (snd (App.on_process_click
                 (Examples.env_at deployed_page (Resolved Examples.bad_image) true)
                 Examples.one_photo))) =
  "Error: bad image".
Proof.
  refine (process_click_detail
            (Examples.env_at deployed_page (Resolved Examples.bad_image) true)
            Examples.one_photo Examples.bad_image
            (body_text Examples.bad_image) [("detail", JStr "bad image")]
            (JStr "bad image") _ _ _ _ _ _); try reflexivity.
  simpl. discriminate.
Qed.

(** ** The current user *)

Lemma dataset_is_false (attribute : option string) (s : string) :
  attribute <> Some s -> dataset_is attribute s = false.
Proof.
  destruct attribute as [v |]; simpl; [| reflexivity].
  intros H. apply String.eqb_neq. congruence.
Qed.

(** C7. On a protected page ([app.html] or [Landing.html]) a non-2xx reply to
    [GET /api/me] sets the location to [login.html] and leaves every element
    of the page as it was; profile.js does the same on its page. *)
Theorem C7_protected_page_redirect :
  (forall (ASSETS : App.Assets) (env : Env) (p : Page App.State) (r : Response),
     authToggle env <> Some "off" ->
     endsWith (pathname (location env)) "/app.html" = true \/
     endsWith (pathname (location env)) "/Landing.html" = true ->
     net env (App.me_request (location env)) = Resolved r ->
     ok r = false ->
     fst (App.loadCurrentUser ASSETS env p) = Ok tt /\
     href (win (snd (App.loadCurrentUser ASSETS env p))) = Some "login.html" /\
     dom (snd (App.loadCurrentUser ASSETS env p)) = dom p /\
     sent (win (snd (App.loadCurrentUser ASSETS env p))) =
       (sent (win p) ++ [App.me_request (location env)])%list) /\
  (forall (env : Env) (p : Page Profile.State) (r : Response),
     net env (Profile.me_request (location env)) = Resolved r ->
     ok r = false ->
     fst (Profile.loadCurrentUser env p) = Ok tt /\
     href (win (snd (Profile.loadCurrentUser env p))) = Some "login.html" /\
     dom (snd (Profile.loadCurrentUser env p)) = dom p /\
     sent (win (snd (Profile.loadCurrentUser env p))) =
       (sent (win p) ++ [Profile.me_request (location env)])%list).
Proof.
  split.
  - intros ASSETS env p r Htoggle Hpath Hnet Hok.
    unfold App.loadCurrentUser. plumbing.
    rewrite (dataset_is_false _ _ Htoggle). plumbing.
    rewrite Hnet. plumbing. rewrite Hok. plumbing.
    assert (Hprot : App.is_protected_path (pathname (location env)) = true).
    { unfold App.is_protected_path. destruct Hpath as [H | H]; rewrite H.
      - reflexivity.
      - apply orb_true_r. }
    rewrite Hprot. plumbing. repeat split.
  - intros env p r Hnet Hok.
    unfold Profile.loadCurrentUser. plumbing.
    rewrite Hnet. plumbing. rewrite Hok. plumbing. repeat split.
Qed.

Lemma C7_protected_page_redirect_witness :
  href (win (snd (App.loadCurrentUser Examples.assets
                    (Examples.env_at deployed_page (Resolved Examples.unauthorized) true)
                    Examples.one_photo))) = Some "login.html" /\
  href (win (snd (Profile.loadCurrentUser
                    (Examples.env_at deployed_page (Resolved Examples.unauthorized) true)
                    Examples.profile_page))) = Some "login.html".
Proof.
  split.
  - apply (proj1 C7_protected_page_redirect Examples.assets
             (Examples.env_at deployed_page (Resolved Examples.unauthorized) true)
             Examples.one_photo Examples.unauthorized).
    + simpl. discriminate.
    + left. reflexivity.
    + reflexivity.
    + reflexivity.
  - apply (proj2 C7_protected_page_redirect
             (Examples.env_at deployed_page (Resolved Examples.unauthorized) true)
             Examples.profile_page Examples.unauthorized); reflexivity.
Defined.

(** C10. With [data-auth-toggle="off"] on the body, [loadCurrentUser] of
    app.js returns at once: the page state is the one it started from, so no
    request went out, the location was not set and no element changed, on
    every path including the protected pages. *)
Theorem C10_auth_toggle_off (ASSETS : App.Assets) (env : Env) (p : Page App.State) :
  authToggle env = Some "off" ->
  App.loadCurrentUser ASSETS env p = (Ok tt, p).
Proof.
  intros Htoggle. unfold App.loadCurrentUser. plumbing.
  rewrite Htoggle. simpl. reflexivity.
Qed.

Lemma C10_auth_toggle_off_witness :
  App.loadCurrentUser Examples.assets
    (Examples.toggle_off (Examples.env_at deployed_page (Resolved Examples.unauthorized) true))
    Examples.one_photo = (Ok tt, Examples.one_photo).
Proof.
  apply C10_auth_toggle_off. reflexivity.
Defined.

(** ** Sign-out *)

Lemma signOut_declined (env : Env) (p : Page Profile.State) :
  confirm_answer env Profile.sign_out_prompt = false ->
  Profile.on_signOut_click env p =
    (Ok tt,
     Build_Page (dom p) (set_prompts (win p) (prompts (win p) ++ [Profile.sign_out_prompt]))).
Proof.
  intros Hanswer. unfold Profile.on_signOut_click. plumbing.
  rewrite Hanswer. reflexivity.
Qed.

Lemma signOut_confirmed (env : Env) (p : Page Profile.State) (r : Response) :
  confirm_answer env Profile.sign_out_prompt = true ->
  net env (Profile.logout_request (location env)) = Resolved r ->
  fst (Profile.on_signOut_click env p) = Ok tt /\
  href (win (snd (Profile.on_signOut_click env p))) = Some "index.html" /\
  sent (win (snd (Profile.on_signOut_click env p))) =
    (sent (win p) ++ [Profile.logout_request (location env)])%list /\
  prompts (win (snd (Profile.on_signOut_click env p))) =
    (prompts (win p) ++ [Profile.sign_out_prompt])%list.
Proof.
  intros Hanswer Hnet. unfold Profile.on_signOut_click. plumbing.
  rewrite Hanswer. plumbing. rewrite Hnet. plumbing.
  repeat split.
Qed.

(** The user name form of the same script catches a rejected request and
    reports it in its message line. *)
Lemma username_submit_rejected (env : Env) (p : Page Profile.State) (e : exn) :
  is_empty (trim (Profile.usernameInput_value (dom p))) = false ->
  net env (Profile.username_request (location env)
             (trim (Profile.usernameInput_value (dom p)))) = Rejected e ->
  fst (Profile.on_username_submit env p) = Ok tt /\
  Profile.usernameMessage (dom (snd (Profile.on_username_submit env p))) =
    exn_message e /\
  Profile.usernameMessage_tone (dom (snd (Profile.on_username_submit env p))) =
    "error".
Proof.
  intros Hname Hnet. unfold Profile.on_username_submit. plumbing.
  rewrite Hname. plumbing.
  cbn [Profile.usernameInput_value Profile.setUsernameMessage].
  rewrite Hnet. plumbing. repeat split.
Qed.

(** C8, at the failing run.  When the user confirms and the logout request
    is rejected by the network, the handler ends with that rejection: the
    location is not set and no element of the page is written. *)
Theorem C8_signout_rejected_fetch (env : Env) (p : Page Profile.State) (e : exn) :
  confirm_answer env Profile.sign_out_prompt = true ->
  net env (Profile.logout_request (location env)) = Rejected e ->
  fst (Profile.on_signOut_click env p) = Throw e /\
  href (win (snd (Profile.on_signOut_click env p))) = href (win p) /\
  dom (snd (Profile.on_signOut_click env p)) = dom p /\
  sent (win (snd (Profile.on_signOut_click env p))) =
    (sent (win p) ++ [Profile.logout_request (location env)])%list.
Proof.
  intros Hanswer Hnet. unfold Profile.on_signOut_click. plumbing.
  rewrite Hanswer. plumbing. rewrite Hnet. plumbing.
  repeat split.
Qed.

Lemma C8_signout_rejected_fetch_witness :
  fst (Profile.on_signOut_click
         (Examples.env_at deployed_page (Rejected Examples.failed_to_fetch) true)
         Examples.profile_page) = Throw Examples.failed_to_fetch /\
  href (win (snd (Profile.on_signOut_click
                    (Examples.env_at deployed_page (Rejected Examples.failed_to_fetch) true)
                    Examples.profile_page))) = None.
Proof.
  destruct (C8_signout_rejected_fetch
              (Examples.env_at deployed_page (Rejected Examples.failed_to_fetch) true)
              Examples.profile_page Examples.failed_to_fetch eq_refl eq_refl)
    as [Hthrow [Hhref _]].
  split; [exact Hthrow | exact Hhref].
Defined.

(** ** Editor export *)

Lemma atob_examples :
  map Editor.atob ["aGVsbG8="; "aGVsbG8"; "aGVs bG8h"; "undefined"; "ab=c"] =
  [Some "hello"; Some "hello"; Some "hello!"; None; None].
Proof. reflexivity. Qed.

(** C9. When the widget exports a data URL whose payload decodes, an export
    click sends exactly one request, a POST to [{apiBase}/resize] whose
    multipart form has the single entry [files]; on a non-2xx reply the status
    line reads [Resize failed: ] followed by the text of the body. *)
Theorem C9_editor_export
  (env : Env) (p : Page Editor.State) (dataUrl bytes : string) :
  toDataURL env = Ok dataUrl ->
  Editor.atob (Editor.payload dataUrl) = Some bytes ->
  let file :=
    {| name := "pixelfit_edit_" +:+ decimal (now env) +:+ ".jpeg";
       type := "image/jpeg"; contents := bytes |} in
  let request :=
    {| url := Editor.API_BASE (location env) +:+ "/resize"; method := "POST";
       req_headers := []; credentials := Some "include";
       req_body := Multipart [("files", FormFile file (name file))] |} in
  sent (win (snd (Editor.on_export_click env p))) = (sent (win p) ++ [request])%list /\
  (forall r : Response,
     net env request = Resolved r ->
     ok r = false ->
     Editor.statusEl (dom (snd (Editor.on_export_click env p))) =
       option_map (fun _ => "Resize failed: " +:+ body_text r)
         (Editor.statusEl (dom p))).
Proof.
  intros Hurl Hdecode file request.
  assert (Hreq : Editor.resize_request (location env)
                   [("files",
                     FormFile (Editor.export_file
                                 {| blob_bytes := bytes;
                                    blob_type :=
                                      Editor.blob_type_of
                                        match Editor.mime_match (fst (Editor.split_comma dataUrl)) with
                                        | Some m => m
                                        | None => "image/jpeg"
                                        end |} (now env))
                       (name (Editor.export_file
                                {| blob_bytes := bytes;
                                   blob_type :=
                                     Editor.blob_type_of
                                       match Editor.mime_match (fst (Editor.split_comma dataUrl)) with
                                       | Some m => m
                                       | None => "image/jpeg"
                                       end |} (now env))))] = request) by reflexivity.
  unfold Editor.on_export_click. plumbing. rewrite Hurl. plumbing.
  unfold Editor.dataUrlToBlob. rewrite Hdecode. plumbing. rewrite Hreq.
  split.
  - destruct (net env request) as [e | r]; plumbing; [reflexivity |].
    destruct (ok r); plumbing; destruct (body r); plumbing; reflexivity.
  - intros r Hnet Hok. rewrite Hnet. plumbing. rewrite Hok. plumbing.
    unfold body_text. destruct (body r); plumbing; simpl;
      destruct (Editor.statusEl (dom p)); reflexivity.
Qed.

Lemma C9_editor_export_witness :
  Editor.statusEl
    (dom (snd (Editor.on_export_click
                 (Examples.env_at deployed_page (Resolved Examples.bad_gateway) true)
                 Examples.editor_page))) =
  Some "Resize failed: Bad Gateway".
Proof.
  apply (proj2 (C9_editor_export
                  (Examples.env_at deployed_page (Resolved Examples.bad_gateway) true)
                  Examples.editor_page Examples.jpeg_data_url Examples.jpeg_bytes
                  eq_refl eq_refl) Examples.bad_gateway); reflexivity.
Defined.

(** * Further properties of the scripts *)

(** ** app.js: selection and edits *)

Lemma formatFileName_nonempty (name : string) :
  is_empty (App.formatFileName name) = false.
Proof.
  unfold App.formatFileName.
  destruct (is_empty (App.replace_ext name)) eqn:E; [reflexivity | exact E].
Qed.

Lemma every_mainFolder_selection (files : list File) :
  App.every_mainFolder
    (map (fun f => {| App.file := f; App.mainFolder := App.formatFileName (name f) |})
       files) = true.
Proof.
  unfold App.every_mainFolder. induction files as [| f rest IH]; simpl.
  - reflexivity.
  - rewrite formatFileName_nonempty. exact IH.
Qed.

(** X1. A selection of at least one file always leaves the process button
    enabled: no derived folder name is empty, whatever the file names are. *)
Theorem selection_enables_process (files : list File) (st : App.State) :
  files <> [] ->
  App.processBtn_disabled (App.on_change files st) = false /\
  Forall (fun entry => App.mainFolder entry <> EmptyString)
    (App.filesState (App.on_change files st)).
Proof.
  intros Hne. split.
  - unfold App.on_change, App.renderFiles. simpl.
    rewrite length_map, (nonempty_length _ Hne). simpl.
    change (negb (App.every_mainFolder
                    (map (fun f => {| App.file := f;
                                      App.mainFolder := App.formatFileName (name f) |})
                       files)) = false).
    rewrite every_mainFolder_selection. reflexivity.
  - rewrite on_change_filesState. apply Forall_forall. intros entry Hin.
    apply list_elem_of_In, in_map_iff in Hin as [f [<- _]]. simpl.
    pose proof (formatFileName_nonempty (name f)) as H.
    destruct (App.formatFileName (name f)); [discriminate | discriminate].
Qed.

Lemma selection_enables_process_witness :
  App.processBtn_disabled (App.on_change [Examples.photo] Examples.fresh_app) = false.
Proof.
  refine (proj1 (selection_enables_process [Examples.photo] Examples.fresh_app _)).
  discriminate.
Defined.



(** X3. An edit whose index names no entry (beyond the end of the sequence,
    or not an array index at all) throws a TypeError before anything is
    written: the page is exactly as it was. *)
Theorem edit_out_of_range_throws
  (target : App.InputTarget) (field : string) (env : Env) (p : Page App.State) :
  App.tagName target = "INPUT" ->
  App.dataset_field target = Some field ->
  is_empty field = false ->
  App.index_number target = App.NotAnIndex \/
  (exists n, App.index_number target = App.Index n /\
             length (App.filesState (dom p)) <= n) ->
  App.updateStateFromInputs target env p =
    (Throw (Exn "TypeError" (platform_message env PropertyOfNullish)), p).
Proof.
  intros Htag Hfield Hne [Hix | [n [Hix Hlen]]].
  - unfold App.updateStateFromInputs. rewrite Htag, Hix, Hfield, Hne. reflexivity.
  - apply (updateStateFromInputs_out_of_range target n field env p); auto.
    apply lookup_ge_None. exact Hlen.
Qed.

Lemma edit_out_of_range_throws_witness :
  App.updateStateFromInputs
    {| App.tagName := "INPUT"; App.index_number := App.Index 1;
       App.dataset_field := Some "mainFolder"; App.value := "x" |}
    (Examples.env_at deployed_page (Resolved Examples.zip_reply) true)
    Examples.one_photo =
  (Throw (Exn "TypeError" "Cannot read properties of null"), Examples.one_photo).
Proof.
  refine (edit_out_of_range_throws
            {| App.tagName := "INPUT"; App.index_number := App.Index 1;
               App.dataset_field := Some "mainFolder"; App.value := "x" |}
            "mainFolder"
            (Examples.env_at deployed_page (Resolved Examples.zip_reply) true)
            Examples.one_photo eq_refl eq_refl eq_refl _).
  right. exists 1. split; [reflexivity | simpl; lia].
Defined.

(** X4. A folder-name edit writes one entry and nothing else: the sequence
    keeps its length, every other entry and every file stay as they were, the
    rendered cards, the status line, the progress bar, the download area and
    the window are untouched. *)
Theorem edit_frame
  (target : App.InputTarget) (n : nat) (entry : App.Entry)
  (env : Env) (p : Page App.State) :
  App.tagName target = "INPUT" ->
  App.index_number target = App.Index n ->
  App.dataset_field target = Some "mainFolder" ->
  App.filesState (dom p) !! n = Some entry ->
  let p' := snd (App.updateStateFromInputs target env p) in
  length (App.filesState (dom p')) = length (App.filesState (dom p)) /\
  map App.file (App.filesState (dom p')) = map App.file (App.filesState (dom p)) /\
  (forall i, i <> n -> App.filesState (dom p') !! i = App.filesState (dom p) !! i) /\
  App.fileList (dom p') = App.fileList (dom p) /\
  App.statusText (dom p') = App.statusText (dom p) /\
  App.progressFill_width (dom p') = App.progressFill_width (dom p) /\
  App.downloadArea (dom p') = App.downloadArea (dom p) /\
  win p' = win p.
Proof.
  intros Htag Hix Hfield Hentry p'. subst p'.
  rewrite (updateStateFromInputs_edit target n "mainFolder" entry env p)
    by auto.
  simpl. repeat split.
  - apply length_insert.
  - rewrite list_fmap_insert. simpl. apply list_insert_id.
    rewrite list_lookup_fmap, Hentry. reflexivity.
  - intros i Hi. apply list_lookup_insert_ne. congruence.
Qed.

Lemma edit_frame_witness :
  map App.file
    (App.filesState
       (dom (snd (App.updateStateFromInputs Examples.blank_edit
                    (Examples.env_at deployed_page (Resolved Examples.zip_reply) true)
                    Examples.one_photo)))) = [Examples.photo].
Proof.
  exact (proj1 (proj2 (edit_frame Examples.blank_edit 0 Examples.photo_entry
                         (Examples.env_at deployed_page (Resolved Examples.zip_reply) true)
                         Examples.one_photo eq_refl eq_refl eq_refl eq_refl))).
Defined.

(** ** app.js: the process click on its other paths *)

(** X5. A process click with no pending entry sends nothing: it only writes
    the status line. *)
Theorem process_click_no_files (env : Env) (p : Page App.State) :
  App.filesState (dom p) = [] ->
  App.on_process_click env p =
    (Ok tt, Build_Page (App.updateStatus "Add files first." (dom p)) (win p)).
Proof.
  intros Hnil. unfold App.on_process_click. plumbing. rewrite Hnil. reflexivity.
Qed.

Lemma process_click_no_files_witness :
  sent (win (snd (App.on_process_click
                    (Examples.env_at deployed_page (Resolved Examples.zip_reply) true)
                    (Build_Page Examples.fresh_app initial_window)))) = [].
Proof.
  rewrite (process_click_no_files
             (Examples.env_at deployed_page (Resolved Examples.zip_reply) true)
             (Build_Page Examples.fresh_app initial_window) eq_refl).
  reflexivity.
Defined.

(** Case analysis on everything the click handler looks at in a reply. *)
Ltac click_cases env :=
  let e := fresh "e" in
  let r := fresh "r" in
  let text := fresh "text" in
  let j := fresh "j" in
  destruct (net env _) as [e | r]; plumbing;
  [ | destruct (ok r); plumbing;
      [ destruct (body r); plumbing
      | unfold App.error_detail; plumbing;
        destruct (body r) as [| text [j |]]; plumbing;
        [ | destruct j; plumbing | ] ] ].

(** X6. Whatever the network answers, a process click ends without an
    uncaught exception, and when there were entries to send it leaves the
    process button enabled, even if some entry has an empty folder name. *)
Theorem process_click_settles (env : Env) (p : Page App.State) :
  fst (App.on_process_click env p) = Ok tt /\
  (App.filesState (dom p) <> [] ->
   App.processBtn_disabled (dom (snd (App.on_process_click env p))) = false).
Proof.
  destruct (App.filesState (dom p)) as [| entry rest] eqn:E.
  - rewrite (process_click_no_files env p E). split; [reflexivity | congruence].
  - assert (Hne : App.filesState (dom p) <> []) by (rewrite E; discriminate).
    split; [| intros _]; click_start Hne; click_cases env; reflexivity.
Qed.

Lemma process_click_settles_witness :
  App.processBtn_disabled
    (dom (snd (App.on_process_click
                 (Examples.env_at deployed_page (Rejected Examples.failed_to_fetch) true)
                 Examples.one_photo))) = false.
Proof.
  refine (proj2 (process_click_settles
                   (Examples.env_at deployed_page (Rejected Examples.failed_to_fetch) true)
                   Examples.one_photo) _).
  simpl. discriminate.
Defined.

(** X7. What a process click never does: it never changes the pending
    entries, the rendered cards or the profile badge, never sets the location,
    never asks for confirmation and never revokes an object URL, so the URL of
    an earlier archive stays allocated. *)
Theorem process_click_frame (env : Env) (p : Page App.State) :
  App.filesState (dom (snd (App.on_process_click env p))) = App.filesState (dom p) /\
  App.fileList (dom (snd (App.on_process_click env p))) = App.fileList (dom p) /\
  App.badge (dom (snd (App.on_process_click env p))) = App.badge (dom p) /\
  href (win (snd (App.on_process_click env p))) = href (win p) /\
  prompts (win (snd (App.on_process_click env p))) = prompts (win p) /\
  revokedURLs (win (snd (App.on_process_click env p))) = revokedURLs (win p).
Proof.
  destruct (App.filesState (dom p)) as [| entry rest] eqn:E.
  - rewrite (process_click_no_files env p E). simpl. rewrite E. repeat split.
  - assert (Hne : App.filesState (dom p) <> []) by (rewrite E; discriminate).
    rewrite <- E.
    repeat split; click_start Hne; click_cases env; reflexivity.
Qed.

(** X8. When the request is rejected by the network, the status line shows
    the message of the rejection after [Error: ], no download card is shown
    and the progress bar stays at 0%. *)
Theorem process_click_rejected (env : Env) (p : Page App.State) (e : exn) :
  App.filesState (dom p) <> [] ->
  net env (App.resize_request (location env) (App.build_form (App.filesState (dom p))))
    = Rejected e ->
  App.statusText (dom (snd (App.on_process_click env p))) =
    "Error: " +:+ exn_message e /\
  App.downloadArea (dom (snd (App.on_process_click env p))) = [] /\
  App.progressFill_width (dom (snd (App.on_process_click env p))) = "0%" /\
  objectURLs (win (snd (App.on_process_click env p))) = objectURLs (win p).
Proof.
  intros Hne Hnet. click_start Hne. rewrite Hnet. plumbing. repeat split.
Qed.

Lemma process_click_rejected_witness :
  App.statusText
    (dom (snd (App.on_process_click
                 (Examples.env_at deployed_page (Rejected Examples.failed_to_fetch) true)
                 Examples.one_photo))) = "Error: Failed to fetch".
Proof.
  refine (proj1 (process_click_rejected
                   (Examples.env_at deployed_page (Rejected Examples.failed_to_fetch) true)
                   Examples.one_photo Examples.failed_to_fetch _ eq_refl)).
  simpl. discriminate.
Defined.



Lemma startsWith_append (prefix rest : string) :
  startsWith (prefix +:+ rest) prefix = true.
Proof.
  induction prefix as [| c prefix IH]; simpl.
  - destruct rest; reflexivity.
  - change (String c prefix +:+ rest) with (String c (prefix +:+ rest)).
    simpl. rewrite Ascii.eqb_refl. exact IH.
Qed.

(** X10. On every failure path of a process click (a rejected request or a
    non-2xx reply of any shape) the status line starts with [Error: ], the
    download area is empty, the progress bar reads 0% and no object URL is
    created. *)
Theorem process_click_failure_is_clean (env : Env) (p : Page App.State) :
  App.filesState (dom p) <> [] ->
  (forall r,
     net env (App.resize_request (location env)
                (App.build_form (App.filesState (dom p)))) = Resolved r ->
     ok r = false) ->
  startsWith (App.statusText (dom (snd (App.on_process_click env p)))) "Error: " = true /\
  App.downloadArea (dom (snd (App.on_process_click env p))) = [] /\
  App.progressFill_width (dom (snd (App.on_process_click env p))) = "0%" /\
  objectURLs (win (snd (App.on_process_click env p))) = objectURLs (win p).
Proof.
  intros Hne Hfail.
  destruct (net env (App.resize_request (location env)
                       (App.build_form (App.filesState (dom p))))) as [e | r] eqn:Hnet.
  - repeat split; click_start Hne; rewrite Hnet; plumbing;
      cbn [App.statusText App.updateStatus App.set_processBtn_disabled
           App.set_statusText];
      first [apply startsWith_append | reflexivity].
  - pose proof (Hfail r eq_refl) as Hok.
    repeat split; click_start Hne; rewrite Hnet; plumbing; rewrite Hok; plumbing;
      unfold App.error_detail; plumbing;
      destruct (body r) as [| text [j |]]; plumbing;
      try destruct j; plumbing;
      cbn [App.statusText App.updateStatus App.set_processBtn_disabled
           App.set_statusText];
      first [apply startsWith_append | reflexivity].
Qed.

Lemma process_click_failure_is_clean_witness :
  App.downloadArea
    (dom (snd (App.on_process_click
                 (Examples.env_at deployed_page (Resolved Examples.bad_gateway) true)
                 Examples.one_photo))) = [].
Proof.
  refine (proj1 (proj2 (process_click_failure_is_clean
                          (Examples.env_at deployed_page (Resolved Examples.bad_gateway) true)
                          Examples.one_photo _ _))).
  - simpl. discriminate.
  - intros r H. injection H as <-. reflexivity.
Defined.

(** ** app.js: the profile badge *)

Lemma before_at_no_at (s : string) :
  all_chars (fun c => negb (Ascii.eqb c "@")) (App.before_at s) = true.
Proof.
  induction s as [| c rest IH]; simpl; [reflexivity |].
  destruct (Ascii.eqb c "@") eqn:E; simpl; [reflexivity |].
  rewrite E. exact IH.
Qed.

Lemma before_at_prefix (s : string) : startsWith s (App.before_at s) = true.
Proof.
  induction s as [| c rest IH]; simpl; [reflexivity |].
  destruct (Ascii.eqb c "@"); simpl; [reflexivity |].
  rewrite Ascii.eqb_refl. exact IH.
Qed.

Lemma baseUsernameFromEmail_cases (email : string) (env : Env) (p : Page App.State) :
  exists username : string,
    App.baseUsernameFromEmail (Value (JStr email)) env p = (Ok username, p) /\
    is_empty username = false /\
    all_chars (fun c => negb (Ascii.eqb c "@")) username = true /\
    (username = "user" \/ startsWith email username = true).
Proof.
  unfold App.baseUsernameFromEmail. simpl.
  destruct email as [| c rest]; simpl.
  - exists "user". repeat split. left. reflexivity.
  - destruct (Ascii.eqb c "@") eqn:E; simpl.
    + exists "user". repeat split. left. reflexivity.
    + exists (String c (App.before_at rest)). repeat split.
      * simpl. rewrite E. apply before_at_no_at.
      * right. simpl. rewrite Ascii.eqb_refl. apply before_at_prefix.
Qed.



(** The signed-out look of the badge. *)
Lemma signed_out_badge (b : App.Badge) :
  App.profile_hidden (App.set_authActions_hidden false (App.set_profile_hidden true b)) =
    option_map (fun _ => true) (App.profile_hidden b) /\
  App.authActions_hidden (App.set_authActions_hidden false (App.set_profile_hidden true b)) =
    option_map (fun _ => false) (App.authActions_hidden b).
Proof. split; reflexivity. Qed.

(** X12. When the request for the current user is rejected by the network
    (on any page, protected or not), or answered non-2xx on a page that is not
    protected, [loadCurrentUser] of app.js hides the profile, shows the
    sign-in actions, writes nothing else and does not set the location. *)
Theorem load_user_signed_out
  (ASSETS : App.Assets) (env : Env) (p : Page App.State) :
  authToggle env <> Some "off" ->
  (exists e, net env (App.me_request (location env)) = Rejected e) \/
  (exists r, net env (App.me_request (location env)) = Resolved r /\
             ok r = false /\
             App.is_protected_path (pathname (location env)) = false) ->
  fst (App.loadCurrentUser ASSETS env p) = Ok tt /\
  dom (snd (App.loadCurrentUser ASSETS env p)) =
    App.set_badge
      (App.set_authActions_hidden false (App.set_profile_hidden true (App.badge (dom p))))
      (dom p) /\
  href (win (snd (App.loadCurrentUser ASSETS env p))) = href (win p).
Proof.
  intros Htoggle Hreply. unfold App.loadCurrentUser. plumbing.
  rewrite (dataset_is_false _ _ Htoggle). plumbing.
  destruct Hreply as [[e Hnet] | [r [Hnet [Hok Hpath]]]]; rewrite Hnet; plumbing.
  - unfold App.on_badge. plumbing. repeat split.
  - rewrite Hok, Hpath. unfold App.on_badge. plumbing. repeat split.
Qed.

Lemma load_user_signed_out_witness :
  href (win (snd (App.loadCurrentUser Examples.assets
                    (Examples.env_at deployed_page (Rejected Examples.failed_to_fetch) true)
                    Examples.one_photo))) = None.
Proof.
  refine (proj2 (proj2 (load_user_signed_out Examples.assets
                          (Examples.env_at deployed_page (Rejected Examples.failed_to_fetch) true)
                          Examples.one_photo _ _))).
  - simpl. discriminate.
  - left. exists Examples.failed_to_fetch. reflexivity.
Defined.

(** X13. A 2xx reply whose body cannot be used (no body, text that is not
    JSON, or the JSON value null) ends in the signed-out look as well: the
    profile is hidden and the sign-in actions are shown. *)
Theorem load_user_unusable_body
  (ASSETS : App.Assets) (env : Env) (p : Page App.State) (r : Response) :
  authToggle env <> Some "off" ->
  net env (App.me_request (location env)) = Resolved r ->
  ok r = true ->
  body r = NullBody \/ (exists text, body r = Bytes text None) \/
  (exists text, body r = Bytes text (Some JNull)) ->
  fst (App.loadCurrentUser ASSETS env p) = Ok tt /\
  dom (snd (App.loadCurrentUser ASSETS env p)) =
    App.set_badge
      (App.set_authActions_hidden false (App.set_profile_hidden true (App.badge (dom p))))
      (dom p).
Proof.
  intros Htoggle Hnet Hok Hbody. unfold App.loadCurrentUser. plumbing.
  rewrite (dataset_is_false _ _ Htoggle). plumbing.
  rewrite Hnet. plumbing. rewrite Hok. plumbing.
  unfold App.show_user. plumbing.
  destruct Hbody as [Hb | [[text Hb] | [text Hb]]]; rewrite Hb; plumbing;
    unfold App.on_badge; plumbing; repeat split.
Qed.

Lemma load_user_unusable_body_witness :
  App.profile_hidden
    (App.badge
       (dom (snd (App.loadCurrentUser Examples.assets
                    (Examples.env_at deployed_page (Resolved Examples.zip_reply) true)
                    Examples.one_photo)))) = Some true.
Proof.
  rewrite (proj2 (load_user_unusable_body Examples.assets
                    (Examples.env_at deployed_page (Resolved Examples.zip_reply) true)
                    Examples.one_photo Examples.zip_reply
                    ltac:(simpl; discriminate) eq_refl eq_refl
                    ltac:(right; left; exists "PK"; reflexivity))).
  reflexivity.
Defined.

Ltac finish_avatar p fields :=
  plumbing;
  destruct (App.profileName (App.badge (dom p))); plumbing;
  destruct (truthy (lookup_member "avatar_url" fields)); plumbing;
  try (destruct (strict_eq_str (lookup_member "gender" fields) "female"); plumbing;
       try (destruct (strict_eq_str (lookup_member "gender" fields) "male"); plumbing));
  repeat (split; [reflexivity |]);
  eexists; eexists; repeat (split; [reflexivity |]); simpl; repeat split.

(** X14. A 2xx reply with a user object (or none, which counts as an empty
    one) whose e-mail, if any, is a string: the profile is shown, the sign-in
    actions are hidden, and exactly one of the avatar image and the fallback
    glyph is displayed.  The image is displayed exactly when the user has an
    avatar URL or the gender [female] or [male]; otherwise its source is
    cleared and the glyph is displayed. *)
Theorem load_user_avatar
  (ASSETS : App.Assets) (env : Env) (p : Page App.State) (r : Response)
  (text : string) (members fields : list (string * JSON))
  (img : App.Img) (fallback : App.Span) :
  authToggle env <> Some "off" ->
  net env (App.me_request (location env)) = Resolved r ->
  ok r = true ->
  body r = Bytes text (Some (JObj members)) ->
  js_or (lookup_member "user" members) (Value (JObj [])) = Value (JObj fields) ->
  (lookup_member "email" fields = Undefined \/
   exists s, lookup_member "email" fields = Value (JStr s)) ->
  App.profileAvatar (App.badge (dom p)) = Some img ->
  App.profileAvatarFallback (App.badge (dom p)) = Some fallback ->
  let b' := App.badge (dom (snd (App.loadCurrentUser ASSETS env p))) in
  let pictured :=
    truthy (lookup_member "avatar_url" fields)
    || strict_eq_str (lookup_member "gender" fields) "female"
    || strict_eq_str (lookup_member "gender" fields) "male" in
  fst (App.loadCurrentUser ASSETS env p) = Ok tt /\
  App.profile_hidden b' = option_map (fun _ => false) (App.profile_hidden (App.badge (dom p))) /\
  App.authActions_hidden b' =
    option_map (fun _ => true) (App.authActions_hidden (App.badge (dom p))) /\
  exists img' fallback',
    App.profileAvatar b' = Some img' /\ App.profileAvatarFallback b' = Some fallback' /\
    (if pictured
     then App.img_display img' = "block" /\ App.span_display fallback' = "none"
     else App.img_display img' = "none" /\ App.span_display fallback' = "block" /\
          App.src img' = EmptyString).
Proof.
  intros Htoggle Hnet Hok Hbody Huser Hemail Himg Hfb b' pictured.
  subst b' pictured.
  unfold App.loadCurrentUser. plumbing.
  rewrite (dataset_is_false _ _ Htoggle). plumbing.
  rewrite Hnet. plumbing. rewrite Hok. plumbing.
  unfold App.show_user. plumbing. rewrite Hbody. plumbing.
  rewrite Huser. unfold App.on_badge. plumbing.
  cbn [App.badge App.set_badge App.set_profile_hidden App.set_authActions_hidden
       App.profileUsername App.profileName App.profileAvatar App.profileAvatarFallback].
  rewrite Himg, Hfb.
  assert (Hmail : exists s, js_or (lookup_member "email" fields) (Value (JStr EmptyString))
                            = Value (JStr s)).
  { destruct Hemail as [-> | [s ->]].
    - exists EmptyString. reflexivity.
    - unfold js_or. destruct (truthy (Value (JStr s))); eauto. }
  destruct Hmail as [mail Hmail]. rewrite Hmail.
  destruct (App.profileUsername (App.badge (dom p))) as [shownName |].
  - destruct (truthy (lookup_member "username" fields)).
    + finish_avatar p fields.
    + match goal with
      | |- context [App.baseUsernameFromEmail ?v ?e ?q] =>
          destruct (baseUsernameFromEmail_cases mail e q) as [username [-> _]]
      end.
      finish_avatar p fields.
  - finish_avatar p fields.
Qed.

Lemma load_user_avatar_witness :
  App.profileAvatar
    (App.badge
       (dom (snd (App.loadCurrentUser Examples.assets
                    (Examples.env_at deployed_page
                       (Resolved
                          {| ok := true; status := 200;
                             content_type := "application/json";
                             body :=
                               Bytes "user"
                                 (Some (JObj [("user",
                                               JObj [("email", JStr "ann@example.org");
                                                     ("gender", JStr "female")])])) |})
                       true)
                    Examples.one_photo)))) =
  Some {| App.src := "/Image/Female Profile.png"; App.img_display := "block" |}.
Proof.
  destruct (load_user_avatar Examples.assets
              (Examples.env_at deployed_page
                 (Resolved
                    {| ok := true; status := 200;
                       content_type := "application/json";
                       body :=
                         Bytes "user"
                           (Some (JObj [("user",
                                         JObj [("email", JStr "ann@example.org");
                                               ("gender", JStr "female")])])) |})
                 true)
              Examples.one_photo _ "user" _
              [("email", JStr "ann@example.org"); ("gender", JStr "female")]
              {| App.src := EmptyString; App.img_display := "none" |}
              {| App.span_text := EmptyString; App.span_display := "block" |}
              ltac:(simpl; discriminate) eq_refl eq_refl eq_refl eq_refl
              ltac:(right; exists "ann@example.org"; reflexivity) eq_refl eq_refl)
    as [_ [_ [_ _]]].
  reflexivity.
Defined.

(** ** profile.js *)

(** X15. [loadCurrentUser] of profile.js sends the visitor to [login.html]
    on every failure: a rejected request, a non-2xx reply, or a 2xx reply
    whose body is missing, is not JSON or is the JSON value null.  In all of
    them the page elements are left as they were. *)
Theorem profile_load_failure (env : Env) (p : Page Profile.State) :
  (exists e, net env (Profile.me_request (location env)) = Rejected e) \/
  (exists r, net env (Profile.me_request (location env)) = Resolved r /\
             (ok r = false \/ body r = NullBody \/
              (exists text, body r = Bytes text None) \/
              (exists text, body r = Bytes text (Some JNull)))) ->
  fst (Profile.loadCurrentUser env p) = Ok tt /\
  href (win (snd (Profile.loadCurrentUser env p))) = Some "login.html" /\
  dom (snd (Profile.loadCurrentUser env p)) = dom p.
Proof.
  intros Hreply. unfold Profile.loadCurrentUser. plumbing.
  destruct Hreply as [[e Hnet] | [r [Hnet Hbad]]]; rewrite Hnet; plumbing.
  - repeat split.
  - destruct (ok r); plumbing; [| repeat split].
    destruct Hbad as [Hb | [Hb | [[text Hb] | [text Hb]]]];
      [discriminate | | |]; rewrite Hb; plumbing; repeat split.
Qed.

Lemma profile_load_failure_witness :
  href (win (snd (Profile.loadCurrentUser
                    (Examples.env_at deployed_page (Resolved Examples.zip_reply) true)
                    Examples.profile_page))) = Some "login.html".
Proof.
  refine (proj1 (proj2 (profile_load_failure
                          (Examples.env_at deployed_page (Resolved Examples.zip_reply) true)
                          Examples.profile_page _))).
  right. exists Examples.zip_reply. split; [reflexivity |].
  right. right. left. exists "PK". reflexivity.
Defined.



(** X17. A user name that is empty or only white space is refused on the
    spot: the message line shows [Username is required.] with the tone
    [error], and no request is sent. *)
Theorem username_blank_is_refused (env : Env) (p : Page Profile.State) :
  all_chars is_js_space (Profile.usernameInput_value (dom p)) = true ->
  Profile.on_username_submit env p =
    (Ok tt,
     Build_Page (Profile.setUsernameMessage "Username is required." "error" (dom p))
       (win p)).
Proof.
  intros Hblank. unfold Profile.on_username_submit. plumbing.
  rewrite (trim_blank _ Hblank). reflexivity.
Qed.

Lemma username_blank_is_refused_witness :
  sent (win (snd (Profile.on_username_submit
                    (Examples.env_at deployed_page (Resolved Examples.zip_reply) true)
                    Examples.profile_page))) = [].
Proof.
  rewrite (username_blank_is_refused
             (Examples.env_at deployed_page (Resolved Examples.zip_reply) true)
             Examples.profile_page eq_refl).
  reflexivity.
Defined.

(** Case analysis on what the user name handler looks at in a reply. *)
Ltac username_cases env :=
  let e := fresh "e" in
  let r := fresh "r" in
  let text := fresh "text" in
  let j := fresh "j" in
  destruct (net env _) as [e | r]; plumbing;
  [ | destruct (body r) as [| text [j |]]; plumbing;
      [ | destruct (ok r); plumbing; [ | destruct j; plumbing ] | ] ].

(** X18. Whatever the network answers, the user name handler sends at most
    one request, a POST of the trimmed name as JSON to [/api/username], ends
    without an uncaught exception, never sets the location and leaves the
    input and the profile panel as they were. *)
Theorem username_submit_frame (env : Env) (p : Page Profile.State) :
  let p' := snd (Profile.on_username_submit env p) in
  fst (Profile.on_username_submit env p) = Ok tt /\
  (sent (win p') = sent (win p) \/
   sent (win p') =
     (sent (win p) ++
      [{| url := Profile.API_BASE (location env) +:+ "/api/username";
          method := "POST";
          req_headers := [("Content-Type", "application/json")];
          credentials := Some "include";
          req_body :=
            TextBody
              (Profile.username_payload (trim (Profile.usernameInput_value (dom p)))) |}])%list) /\
  href (win p') = href (win p) /\
  Profile.usernameInput_value (dom p') = Profile.usernameInput_value (dom p) /\
  Profile.userPanel_hidden (dom p') = Profile.userPanel_hidden (dom p) /\
  Profile.userGreeting (dom p') = Profile.userGreeting (dom p).
Proof.
  intros p'. subst p'. unfold Profile.on_username_submit. plumbing.
  destruct (is_empty (trim (Profile.usernameInput_value (dom p)))); plumbing.
  - repeat split. left. reflexivity.
  - cbn [Profile.usernameInput_value Profile.setUsernameMessage].
    repeat split; try (right; unfold Profile.username_request);
      username_cases env; reflexivity.
Qed.

(** X19. A 2xx reply to the user name update is reported as a success only
    if its body is JSON: the handler parses the body before it looks at the
    status, so a 2xx reply with an empty or non-JSON body ends with the
    parser's message and the tone [error]. *)
Theorem username_submit_2xx
  (env : Env) (p : Page Profile.State) (r : Response) :
  is_empty (trim (Profile.usernameInput_value (dom p))) = false ->
  net env (Profile.username_request (location env)
             (trim (Profile.usernameInput_value (dom p)))) = Resolved r ->
  ok r = true ->
  let p' := snd (Profile.on_username_submit env p) in
  ((exists text j, body r = Bytes text (Some j)) ->
   Profile.usernameMessage (dom p') = "Username updated." /\
   Profile.usernameMessage_tone (dom p') = "success") /\
  (body r = NullBody \/ (exists text, body r = Bytes text None) ->
   Profile.usernameMessage (dom p') = platform_message env JsonSyntax /\
   Profile.usernameMessage_tone (dom p') = "error").
Proof.
  intros Hname Hnet Hok p'. subst p'.
  unfold Profile.on_username_submit. plumbing. rewrite Hname. plumbing.
  cbn [Profile.usernameInput_value Profile.setUsernameMessage].
  rewrite Hnet. plumbing. split.
  - intros [text [j Hb]]. rewrite Hb. plumbing. rewrite Hok. plumbing. split; reflexivity.
  - intros [Hb | [text Hb]]; rewrite Hb; plumbing; split; reflexivity.
Qed.

Lemma username_submit_2xx_witness :
  Profile.usernameMessage_tone
    (dom (snd (Profile.on_username_submit
                 (Examples.env_at deployed_page (Resolved Examples.no_content) true)
                 Examples.named_profile_page))) = "error".
Proof.
  refine (proj2 (proj2 (username_submit_2xx
                          (Examples.env_at deployed_page (Resolved Examples.no_content) true)
                          Examples.named_profile_page Examples.no_content
                          eq_refl eq_refl eq_refl) _)).
  left. reflexivity.
Defined.



(** X21. Sign-out asks once, with the same question every time.  If the user
    declines, nothing else happens: no request and no navigation.  If the user
    confirms and the request gets any reply, 2xx or not, exactly one logout
    request has gone out and the location is set to [index.html]. *)
Theorem signOut_answered (env : Env) (p : Page Profile.State) :
  (confirm_answer env Profile.sign_out_prompt = false ->
   Profile.on_signOut_click env p =
     (Ok tt,
      Build_Page (dom p)
        (set_prompts (win p) (prompts (win p) ++ [Profile.sign_out_prompt])))) /\
  (forall r : Response,
     confirm_answer env Profile.sign_out_prompt = true ->
     net env (Profile.logout_request (location env)) = Resolved r ->
     fst (Profile.on_signOut_click env p) = Ok tt /\
     href (win (snd (Profile.on_signOut_click env p))) = Some "index.html" /\
     sent (win (snd (Profile.on_signOut_click env p))) =
       (sent (win p) ++ [Profile.logout_request (location env)])%list /\
     prompts (win (snd (Profile.on_signOut_click env p))) =
       (prompts (win p) ++ [Profile.sign_out_prompt])%list /\
     dom (snd (Profile.on_signOut_click env p)) = dom p).
Proof.
  split.
  - intros Hanswer. unfold Profile.on_signOut_click. plumbing.
    rewrite Hanswer. reflexivity.
  - intros r Hanswer Hnet. unfold Profile.on_signOut_click. plumbing.
    rewrite Hanswer. plumbing. rewrite Hnet. plumbing. repeat split.
Qed.

Lemma signOut_answered_witness :
  Profile.on_signOut_click
    (Examples.env_at deployed_page (Resolved Examples.unauthorized) false)
    Examples.profile_page =
  (Ok tt,
   Build_Page (dom Examples.profile_page)
     (set_prompts initial_window ["Are You Sure You Want To Sign Out"])) /\
  href (win (snd (Profile.on_signOut_click
                    (Examples.env_at deployed_page (Resolved Examples.unauthorized) true)
                    Examples.profile_page))) = Some "index.html".
Proof.
  split.
  - exact (proj1 (signOut_answered
                    (Examples.env_at deployed_page (Resolved Examples.unauthorized) false)
                    Examples.profile_page) eq_refl).
  - exact (proj1 (proj2 (proj2 (signOut_answered
                    (Examples.env_at deployed_page (Resolved Examples.unauthorized) true)
                    Examples.profile_page) Examples.unauthorized eq_refl eq_refl))).
Defined.

(** ** The authentication script *)

Lemma shown_message_nonempty (error : exn) :
  is_empty (Auth.shown_message error) = false.
Proof.
  unfold Auth.shown_message.
  destruct (is_empty (exn_message error)) eqn:E; [reflexivity | exact E].
Qed.

(** X22. [handleAuth] goes to [Landing.html] exactly on a 2xx reply, of any
    body: then the message reads [Success! Redirecting...]; nothing of the
    reply body is read. *)
Theorem handleAuth_success
  (endpoint : string) (payload : list (string * string))
  (env : Env) (p : Page Auth.State) (r : Response) :
  net env (Auth.auth_request (location env) endpoint payload) = Resolved r ->
  ok r = true ->
  Auth.handleAuth endpoint payload env p =
    (Ok tt,
     Build_Page (Auth.setMessage "Success! Redirecting..." "success" (dom p))
       (set_href
          (set_bodyUsed
             (set_sent (win p)
                (sent (win p) ++ [Auth.auth_request (location env) endpoint payload]))
             false)
          (Some "Landing.html"))).
Proof.
  intros Hnet Hok. unfold Auth.handleAuth. plumbing. rewrite Hnet. plumbing.
  rewrite Hok. plumbing. unfold Auth.setMessage. simpl.
  destruct (Auth.authMessage (dom p)); reflexivity.
Qed.

Lemma handleAuth_success_witness :
  href (win (snd (Auth.on_login_submit "ann@example.org" "secret"
                    (Examples.env_at deployed_page (Resolved Examples.no_content) true)
                    Examples.auth_page))) = Some "Landing.html".
Proof.
  unfold Auth.on_login_submit.
  rewrite (handleAuth_success "/api/login"
             [("email", "ann@example.org"); ("password", "secret")]
             (Examples.env_at deployed_page (Resolved Examples.no_content) true)
             Examples.auth_page Examples.no_content eq_refl eq_refl).
  reflexivity.
Defined.

(** X23. On every failure of [handleAuth] (a rejected request or a non-2xx
    reply of any shape) the location is not set, the handler ends without an
    uncaught exception, and the message element, when the page has one, shows
    a text that is never empty, with the tone [error]. *)
Theorem handleAuth_failure
  (endpoint : string) (payload : list (string * string))
  (env : Env) (p : Page Auth.State) :
  (forall r,
     net env (Auth.auth_request (location env) endpoint payload) = Resolved r ->
     ok r = false) ->
  fst (Auth.handleAuth endpoint payload env p) = Ok tt /\
  href (win (snd (Auth.handleAuth endpoint payload env p))) = href (win p) /\
  (Auth.authMessage (dom p) = None ->
   Auth.authMessage (dom (snd (Auth.handleAuth endpoint payload env p))) = None) /\
  (Auth.authMessage (dom p) <> None ->
   exists text,
     Auth.authMessage (dom (snd (Auth.handleAuth endpoint payload env p))) =
       Some (text, "error") /\
     is_empty text = false).
Proof.
  intros Hfail. unfold Auth.handleAuth. plumbing.
  destruct (net env (Auth.auth_request (location env) endpoint payload))
    as [e | r] eqn:Hnet; plumbing.
  - repeat split.
    + intros Hnone. unfold Auth.setMessage. simpl. rewrite Hnone. reflexivity.
    + intros Hsome. exists (Auth.shown_message e). split.
      * unfold Auth.setMessage. simpl.
        destruct (Auth.authMessage (dom p)); [reflexivity | congruence].
      * apply shown_message_nonempty.
  - rewrite (Hfail r eq_refl). plumbing.
    assert (Hshape :
      forall e : exn,
        (Auth.authMessage (dom p) = None ->
         Auth.authMessage
           (Auth.setMessage (Auth.shown_message e) "error"
              (Auth.setMessage "Working..." "info" (dom p))) = None) /\
        (Auth.authMessage (dom p) <> None ->
         exists text,
           Auth.authMessage
             (Auth.setMessage (Auth.shown_message e) "error"
                (Auth.setMessage "Working..." "info" (dom p))) =
             Some (text, "error") /\ is_empty text = false)).
    { intros e. unfold Auth.setMessage. simpl. split.
      - intros ->. reflexivity.
      - intros Hsome. exists (Auth.shown_message e). split.
        + destruct (Auth.authMessage (dom p)); [reflexivity | congruence].
        + apply shown_message_nonempty. }
    destruct (body r) as [| text [j |]]; plumbing;
      try (destruct j; plumbing);
      (split; [reflexivity |]); (split; [reflexivity |]);
      apply Hshape.
Qed.

Lemma handleAuth_failure_witness :
  href (win (snd (Auth.handleAuth "/api/login"
                    [("email", "ann@example.org"); ("password", "secret")]
                    (Examples.env_at deployed_page (Resolved Examples.bad_gateway) true)
                    Examples.auth_page))) = None.
Proof.
  refine (proj1 (proj2 (handleAuth_failure "/api/login"
                          [("email", "ann@example.org"); ("password", "secret")]
                          (Examples.env_at deployed_page (Resolved Examples.bad_gateway) true)
                          Examples.auth_page _))).
  intros r H. injection H as <-. reflexivity.
Defined.

(** X24. A non-2xx reply whose body is missing or is not JSON shows the
    default [Something went wrong.]: the failed parse is replaced by an empty
    object instead of being reported.  A body that parses to an object shows
    its [detail] when that is truthy and prints as a non-empty text. *)
Theorem handleAuth_error_text
  (endpoint : string) (payload : list (string * string))
  (env : Env) (p : Page Auth.State) (r : Response) (shown : string * string) :
  net env (Auth.auth_request (location env) endpoint payload) = Resolved r ->
  ok r = false ->
  Auth.authMessage (dom p) = Some shown ->
  (body r = NullBody \/ (exists text, body r = Bytes text None) ->
   Auth.authMessage (dom (snd (Auth.handleAuth endpoint payload env p))) =
     Some ("Something went wrong.", "error")) /\
  (forall text members detail,
     body r = Bytes text (Some (JObj members)) ->
     lookup_member "detail" members = Value (JStr detail) ->
     is_empty detail = false ->
     Auth.authMessage (dom (snd (Auth.handleAuth endpoint payload env p))) =
       Some (detail, "error")).
Proof.
  intros Hnet Hok Hmsg. unfold Auth.handleAuth. plumbing. rewrite Hnet. plumbing.
  rewrite Hok. plumbing. split.
  - intros [Hb | [text Hb]]; rewrite Hb; plumbing;
      unfold Auth.setMessage, Auth.shown_message; simpl; rewrite Hmsg; reflexivity.
  - intros text members detail Hb Hdetail Hne. rewrite Hb. plumbing.
    rewrite Hdetail. unfold js_or. simpl. rewrite Hne. simpl.
    unfold Auth.setMessage, Auth.shown_message. simpl. rewrite Hne, Hmsg. reflexivity.
Qed.

Lemma handleAuth_error_text_witness :
  Auth.authMessage
    (dom (snd (Auth.handleAuth "/api/login"
                 [("email", "ann@example.org"); ("password", "secret")]
                 (Examples.env_at deployed_page (Resolved Examples.bad_gateway) true)
                 Examples.auth_page))) = Some ("Something went wrong.", "error").
Proof.
  refine (proj1 (handleAuth_error_text "/api/login"
                   [("email", "ann@example.org"); ("password", "secret")]
                   (Examples.env_at deployed_page (Resolved Examples.bad_gateway) true)
                   Examples.auth_page Examples.bad_gateway (EmptyString, EmptyString)
                   eq_refl eq_refl eq_refl) _).
  right. exists "Bad Gateway". reflexivity.
Defined.

(** ** assets.js *)

(** X25. On a page with neither navigation button the handler only sets the
    logos and sends no request.  On a page with one, it asks
    [{origin}/api/me] once, on every host, and points the buttons at
    [Landing.html] after a 2xx reply and at [index.html] and [login.html]
    after a non-2xx reply or a rejected request; it never throws and never
    sets the location. *)
Theorem assets_links (env : Env) (p : Page Assets.State) :
  let p' := snd (Assets.on_DOMContentLoaded env p) in
  fst (Assets.on_DOMContentLoaded env p) = Ok tt /\
  href (win p') = href (win p) /\
  Assets.logos (dom p') = map (fun _ => "/Image/PixelFit Logo.png") (Assets.logos (dom p)) /\
  (Assets.homeBtn (dom p) = None -> Assets.resizerBtn (dom p) = None ->
   sent (win p') = sent (win p)) /\
  (Assets.homeBtn (dom p) <> None \/ Assets.resizerBtn (dom p) <> None ->
   sent (win p') =
     (sent (win p) ++
      [{| url := origin (location env) +:+ "/api/me"; method := "GET";
          req_headers := []; credentials := Some "include"; req_body := NoBody |}])%list /\
   let signed_in :=
     match net env (Assets.me_request (location env)) with
     | Resolved r => ok r
     | Rejected _ => false
     end in
   Assets.homeBtn (dom p') =
     option_map (fun _ => if signed_in then "Landing.html" else "index.html")
       (Assets.homeBtn (dom p)) /\
   Assets.resizerBtn (dom p') =
     option_map (fun _ => if signed_in then "Landing.html" else "login.html")
       (Assets.resizerBtn (dom p))).
Proof.
  intros p'. subst p'. unfold Assets.on_DOMContentLoaded. plumbing.
  cbn [Assets.set_logos Assets.homeBtn Assets.resizerBtn Assets.logos].
  destruct (Assets.homeBtn (dom p)) as [home |] eqn:Hhome;
    destruct (Assets.resizerBtn (dom p)) as [resizer |] eqn:Hresizer; plumbing;
    try (destruct (net env (Assets.me_request (location env))) as [e | r]; plumbing;
         [| destruct (ok r)]);
    (split; [reflexivity |]); (split; [reflexivity |]); (split; [reflexivity |]);
    (split; [first [intros ? ?; discriminate | intros _ _; reflexivity] |]);
    first [solve [intros _; simpl; rewrite ?Hhome, ?Hresizer; repeat split]
          | intros [? | ?]; congruence].
Qed.

Lemma assets_links_witness :
  Assets.resizerBtn
    (dom (snd (Assets.on_DOMContentLoaded
                 (Examples.env_at local_page (Resolved Examples.unauthorized) true)
                 Examples.shared_page))) = Some "login.html" /\
  sent (win (snd (Assets.on_DOMContentLoaded
                    (Examples.env_at local_page (Resolved Examples.unauthorized) true)
                    Examples.shared_page))) =
  [{| url := "http://localhost:5500/api/me"; method := "GET"; req_headers := [];
      credentials := Some "include"; req_body := NoBody |}].
Proof.
  destruct (proj2 (proj2 (proj2 (proj2
              (assets_links
                 (Examples.env_at local_page (Resolved Examples.unauthorized) true)
                 Examples.shared_page))))
              ltac:(left; simpl; discriminate)) as [Hsent [_ Hresizer]].
  split; [exact Hresizer | exact Hsent].
Defined.

(** ** editor.js: data URLs *)


















Lemma until_comma_none (s : string) :
  all_chars (fun c => negb (Ascii.eqb c ",")) s = true ->
  Editor.until_comma s = (s, None).
Proof.
  induction s as [| c s IH]; simpl; [reflexivity |].
  intros H. apply andb_prop in H as [Hc Hs]. apply negb_true_iff in Hc.
  rewrite Hc, (IH Hs). reflexivity.
Qed.






(** ** editor.js: export and upload on their other paths *)

(** X27. When the widget fails to export, or exports a data URL whose
    payload does not decode (for one, a URL without a comma), the export
    click sends no request and triggers no download; the status line, if the
    page has one, reads [Something went wrong while exporting.]. *)
Theorem export_without_image (env : Env) (p : Page Editor.State) :
  (exists e, toDataURL env = Throw e) \/
  (exists dataUrl, toDataURL env = Ok dataUrl /\
                   Editor.atob (Editor.payload dataUrl) = None) ->
  Editor.on_export_click env p =
    (Ok tt,
     Build_Page (Editor.setStatus "Something went wrong while exporting." (dom p))
       (win p)).
Proof.
  intros Hwidget. unfold Editor.on_export_click. plumbing.
  destruct Hwidget as [[e Hurl] | [dataUrl [Hurl Hdecode]]]; rewrite Hurl; plumbing.
  - unfold Editor.setStatus. simpl.
    destruct (Editor.statusEl (dom p)); reflexivity.
  - unfold Editor.dataUrlToBlob. rewrite Hdecode. plumbing.
    unfold Editor.setStatus. simpl.
    destruct (Editor.statusEl (dom p)); reflexivity.
Qed.

Lemma payload_without_comma (dataUrl : string) :
  all_chars (fun c => negb (Ascii.eqb c ",")) dataUrl = true ->
  Editor.atob (Editor.payload dataUrl) = None.
Proof.
  intros H. unfold Editor.payload, Editor.split_comma.
  rewrite (until_comma_none _ H). reflexivity.
Qed.

Lemma export_without_image_witness :
  sent (win (snd (Editor.on_export_click
                    (Examples.broken_widget
                       (Examples.env_at deployed_page (Resolved Examples.zip_reply) true))
                    Examples.editor_page))) = [].
Proof.
  rewrite (export_without_image
             (Examples.broken_widget
                (Examples.env_at deployed_page (Resolved Examples.zip_reply) true))
             Examples.editor_page).
  - reflexivity.
  - right. exists "data:image/jpeg;base64". split; [reflexivity |].
    apply payload_without_comma. reflexivity.
Defined.

(** X28. After a 2xx reply the export click hands the archive to the browser
    once, under the name [pixelfit_resized_images.zip], through an object URL
    that it revokes right away: the URL that is revoked is the one that was
    created and clicked. *)
Theorem export_success
  (env : Env) (p : Page Editor.State) (dataUrl bytes : string) (r : Response) :
  toDataURL env = Ok dataUrl ->
  Editor.atob (Editor.payload dataUrl) = Some bytes ->
  (forall request, net env request = Resolved r) ->
  ok r = true ->
  let p' := snd (Editor.on_export_click env p) in
  let url := "blob:" +:+ decimal (Z.of_nat (length (objectURLs (win p)))) in
  fst (Editor.on_export_click env p) = Ok tt /\
  Editor.downloads (dom p') =
    (Editor.downloads (dom p) ++ [(url, "pixelfit_resized_images.zip")])%list /\
  objectURLs (win p') =
    (objectURLs (win p)
       ++ [{| blob_bytes := body_text r; blob_type := content_type r |}])%list /\
  revokedURLs (win p') = (revokedURLs (win p) ++ [url])%list /\
  Editor.statusEl (dom p') =
    option_map (fun _ => "Your ZIP is ready.") (Editor.statusEl (dom p)).
Proof.
  intros Hurl Hdecode Hnet Hok p' url. subst p' url.
  unfold Editor.on_export_click. plumbing. rewrite Hurl. plumbing.
  unfold Editor.dataUrlToBlob. rewrite Hdecode. plumbing.
  rewrite Hnet. plumbing. rewrite Hok. plumbing.
  unfold body_text. destruct (body r); plumbing; simpl;
    destruct (Editor.statusEl (dom p)); repeat split.
Qed.

Lemma export_success_witness :
  revokedURLs
    (win (snd (Editor.on_export_click
                 (Examples.env_at deployed_page (Resolved Examples.zip_reply) true)
                 Examples.editor_page))) = ["blob:0"].
Proof.
  exact (proj1 (proj2 (proj2 (proj2
           (export_success
              (Examples.env_at deployed_page (Resolved Examples.zip_reply) true)
              Examples.editor_page Examples.jpeg_data_url Examples.jpeg_bytes
              Examples.zip_reply eq_refl eq_refl (fun _ => eq_refl) eq_refl))))).
Defined.

(** X29. An export click never ends with an uncaught exception and never
    sets the location, whatever the widget and the network do; when the
    request is rejected the status line reads
    [Something went wrong while exporting.] and nothing is downloaded. *)
Theorem export_settles (env : Env) (p : Page Editor.State) :
  fst (Editor.on_export_click env p) = Ok tt /\
  href (win (snd (Editor.on_export_click env p))) = href (win p) /\
  (forall dataUrl bytes e,
     toDataURL env = Ok dataUrl ->
     Editor.atob (Editor.payload dataUrl) = Some bytes ->
     (forall request, net env request = Rejected e) ->
     Editor.statusEl (dom (snd (Editor.on_export_click env p))) =
       option_map (fun _ => "Something went wrong while exporting.")
         (Editor.statusEl (dom p)) /\
     Editor.downloads (dom (snd (Editor.on_export_click env p))) =
       Editor.downloads (dom p)).
Proof.
  unfold Editor.on_export_click. plumbing.
  destruct (toDataURL env) as [dataUrl |] eqn:Hurl; plumbing.
  - unfold Editor.dataUrlToBlob.
    destruct (Editor.atob (Editor.payload dataUrl)) as [bytes |] eqn:Hdecode; plumbing.
    + split; [| split].
      * destruct (net env _) as [e | r]; plumbing; [reflexivity |].
        destruct (ok r); plumbing; destruct (body r); plumbing; reflexivity.
      * destruct (net env _) as [e | r]; plumbing; [reflexivity |].
        destruct (ok r); plumbing; destruct (body r); plumbing; reflexivity.
      * intros dataUrl' bytes' e' Hurl' Hdecode' Hnet. injection Hurl' as <-.
        rewrite Hnet. plumbing. simpl.
        destruct (Editor.statusEl (dom p)); split; reflexivity.
    + split; [reflexivity |]. split; [reflexivity |].
      intros dataUrl' bytes' e' Hurl' Hdecode' Hnet. congruence.
  - split; [reflexivity |]. split; [reflexivity |].
    intros dataUrl' bytes' e' Hurl' Hdecode' Hnet. congruence.
Qed.

Lemma export_settles_witness :
  Editor.statusEl
    (dom (snd (Editor.on_export_click
                 (Examples.env_at deployed_page (Rejected Examples.failed_to_fetch) true)
                 Examples.editor_page))) =
  Some "Something went wrong while exporting.".
Proof.
  exact (proj1 (proj2 (proj2
           (export_settles
              (Examples.env_at deployed_page (Rejected Examples.failed_to_fetch) true)
              Examples.editor_page))
           Examples.jpeg_data_url Examples.jpeg_bytes Examples.failed_to_fetch
           eq_refl eq_refl (fun _ => eq_refl))).
Defined.

(** X30. The upload handler looks at the first selected file only.  With no
    file it does nothing.  A file whose type holds neither [image/png] nor
    [image/jpeg] is never passed to the widget: only the status line changes.
    A file that passes is passed to the widget once, as its data URL under its
    own name; if the widget takes it, the undo stack is cleared once and the
    status names the file, and if the widget refuses it, the undo stack is not
    cleared and the status says so.  No request is sent on any path. *)
Theorem upload_paths
  (files : list File) (load_result : outcome unit) (env : Env)
  (p : Page (Editor.State * Editor.Widget)) :
  let p' := snd (Editor.on_upload_change files load_result env p) in
  fst (Editor.on_upload_change files load_result env p) = Ok tt /\
  win p' = win p /\
  (files = [] -> p' = p) /\
  (forall file rest,
     files = file :: rest ->
     Editor.is_png_or_jpeg (type file) = false ->
     dom p' =
       (Editor.setStatus "Please upload a PNG or JPG file." (fst (dom p)), snd (dom p))) /\
  (forall file rest,
     files = file :: rest ->
     Editor.is_png_or_jpeg (type file) = true ->
     Editor.load_calls (snd (dom p')) =
       (Editor.load_calls (snd (dom p)) ++ [(Editor.readAsDataURL file, name file)])%list /\
     match load_result with
     | Ok _ =>
         fst (dom p') = Editor.setStatus ("Editing: " +:+ name file) (fst (dom p)) /\
         Editor.undo_clears (snd (dom p')) = S (Editor.undo_clears (snd (dom p)))
     | Throw _ =>
         fst (dom p') =
           Editor.setStatus "Unable to load the image. Try again." (fst (dom p)) /\
         Editor.undo_clears (snd (dom p')) = Editor.undo_clears (snd (dom p))
     end).
Proof.
  intros p'. subst p'. unfold Editor.on_upload_change.
  destruct files as [| file rest]; plumbing.
  - split; [reflexivity |]. split; [reflexivity |]. split; [reflexivity |].
    split; intros f rest' Hfiles; discriminate.
  - destruct (Editor.is_png_or_jpeg (type file)) eqn:Htype; plumbing.
    + destruct load_result as [[] | e]; plumbing;
        (split; [reflexivity |]); (split; [reflexivity |]);
        (split; [intros Hfiles; discriminate |]);
        (split; intros f rest' Hfiles Hf; injection Hfiles as <- <-;
           [congruence | repeat split]).
    + split; [reflexivity |]. split; [reflexivity |].
      split; [intros Hfiles; discriminate |].
      split; intros f rest' Hfiles Hf; injection Hfiles as <- <-;
        [reflexivity | congruence].
Qed.

Lemma upload_paths_witness :
  dom (snd (Editor.on_upload_change
              [{| name := "notes.txt"; type := "text/plain"; contents := "hello" |};
               Examples.photo]
              (Ok tt)
              (Examples.env_at deployed_page (Resolved Examples.zip_reply) true)
              Examples.upload_page)) =
  (Editor.setStatus "Please upload a PNG or JPG file." (fst (dom Examples.upload_page)),
   snd (dom Examples.upload_page)).
Proof.
  exact (proj1 (proj2 (proj2 (proj2
           (upload_paths
              [{| name := "notes.txt"; type := "text/plain"; contents := "hello" |};
               Examples.photo]
              (Ok tt)
              (Examples.env_at deployed_page (Resolved Examples.zip_reply) true)
              Examples.upload_page))))
           {| name := "notes.txt"; type := "text/plain"; contents := "hello" |}
           [Examples.photo] eq_refl eq_refl).
Defined.
